(** * gojiutil: middlewares for goji, embedded in Rocq

    The development follows the package as it is written:

    - [src/unnamed/part_000] is the current [middleware.go] (request IDs
      with a random prefix, [EnvAdd], [Logger15], [Recoverer],
      [FormParser], [GetJSONBody]);
    - the second half of [src/middleware_test.go] holds the response
      helpers ([WriteString], [ErrorString], [Errorf], [ErrorInternal]);
    - [src/middleware.go] is an earlier revision of the middlewares; the
      functions of it that differ are embedded in [Module Rev1].

    A handler is a function of the request and of the state it can reach:
    the context's [Env] map (shared by reference between all the handlers
    of one request), the calls made on the [http.ResponseWriter] it was
    handed, the log records emitted, and the two package variables
    [reqPrefix] and [reqID].  A handler either returns or panics; the state
    it has built up to the panic is kept.  The package documents that
    [c.Env] is allocated ([goji/middleware.EnvInit] runs first in
    [AddCommon]), so [Env] is a map and never Go's nil map. *)

From Stdlib Require Import ZArith String Ascii List Lia.
From Stdlib.Strings Require Byte.
From stdpp Require Import base option list gmap strings pretty.

Open Scope Z_scope.

(** ** Strings of the Go standard library *)

Module strings.

Definition newline : ascii := "010"%char.
Definition tab : ascii := "009"%char.

(** [strings.HasPrefix(s, prefix)] *)
Definition HasPrefix (s prefix : string) : bool := String.prefix prefix s.

(** [strings.Index(s, substr)]: [None] stands for Go's -1 *)
Definition Index (s substr : string) : option nat := String.index 0 substr s.

(** [strings.TrimLeft(s, cutset)] for a cutset of one character *)
Fixpoint TrimLeft (s : string) (cut : ascii) : string :=
  match s with
  | EmptyString => EmptyString
  | String a s' => if Ascii.eqb a cut then TrimLeft s' cut else s
  end.

(** [strings.Split(s, sep)] for a separator of one character *)
Fixpoint Split (s : string) (sep : ascii) : list string :=
  match s with
  | EmptyString => [EmptyString]
  | String a s' =>
      if Ascii.eqb a sep then EmptyString :: Split s' sep
      else match Split s' sep with
           | x :: xs => String a x :: xs
           | [] => [String a EmptyString]
           end
  end.

(** [strings.Replace(s, old, new, -1)] for [old] of one character *)
Fixpoint Replace (s : string) (old : ascii) (new : string) : string :=
  match s with
  | EmptyString => EmptyString
  | String a s' =>
      if Ascii.eqb a old then new +:+ Replace s' old new
      else String a (Replace s' old new)
  end.

End strings.

(** ** Integers: [int] and [int64] are 64 bits wide *)

Definition int64_min : Z := - 2 ^ 63.
Definition int64_max : Z := 2 ^ 63 - 1.

(** Two's complement wrap-around of 64-bit signed arithmetic. *)
Definition wrap64 (z : Z) : Z := (z + 2 ^ 63) mod 2 ^ 64 - 2 ^ 63.

Module strconv.

(** [strconv.FormatInt(i, 10)], [strconv.Itoa(i)] and the verb [%d] *)
Definition FormatInt (i : Z) : string := pretty i.
Definition Itoa (i : Z) : string := pretty i.

Definition is_digit (a : ascii) : bool :=
  let n := nat_of_ascii a in ((48 <=? n) && (n <=? 57))%nat.

Fixpoint digits (s : string) (acc : Z) : option Z :=
  match s with
  | EmptyString => Some acc
  | String a s' =>
      if is_digit a
      then digits s' (10 * acc + (Z.of_nat (nat_of_ascii a) - 48))
      else None
  end.

Inductive NumErr := ErrSyntax | ErrRange.

Definition NumErr_text (e : NumErr) : string :=
  match e with
  | ErrSyntax => "invalid syntax"
  | ErrRange => "value out of range"
  end.

Definition dquote : string := String "034"%char EmptyString.

(** The [Error()] text of the [NumError] that [Atoi] returns.  The operand is put
    between double quotes as it is; the escapes that [strconv.Quote]
    adds for quotes, backslashes and unprintable bytes are left out. *)
Definition NumError (num : string) (e : NumErr) : string :=
  "strconv.Atoi: parsing " +:+ dquote +:+ num +:+ dquote +:+ ": "
    +:+ NumErr_text e.

(** [strconv.Atoi(s)]: an optional sign, then decimal digits, the value
    within [int]. *)
Definition Atoi (s : string) : Z + string :=
  let '(neg, body) :=
    match s with
    | String "-"%char s' => (true, s')
    | String "+"%char s' => (false, s')
    | _ => (false, s)
    end in
  match body with
  | EmptyString => inr (NumError s ErrSyntax)
  | _ =>
      match digits body 0 with
      | None => inr (NumError s ErrSyntax)
      | Some n =>
          let v := if neg then - n else n in
          if (int64_min <=? v) && (v <=? int64_max) then inl v
          else inr (NumError s ErrRange)
      end
  end.

End strconv.

(** ** Requests *)

Module textproto.

(** The bytes allowed in a header field name (RFC 7230 token). *)
Definition validHeaderFieldByte (a : ascii) : bool :=
  let n := nat_of_ascii a in
  (((48 <=? n) && (n <=? 57)) || ((65 <=? n) && (n <=? 90))
   || ((97 <=? n) && (n <=? 122))
   || bool_decide (n ∈ [33; 35; 36; 37; 38; 39; 42; 43; 45; 46; 94; 95; 96; 124; 126]))%nat.

Fixpoint all_valid (s : string) : bool :=
  match s with
  | EmptyString => true
  | String a s' => validHeaderFieldByte a && all_valid s'
  end.

Definition to_upper (a : ascii) : ascii :=
  let n := nat_of_ascii a in
  if ((97 <=? n) && (n <=? 122))%nat then ascii_of_nat (n - 32) else a.

Definition to_lower (a : ascii) : ascii :=
  let n := nat_of_ascii a in
  if ((65 <=? n) && (n <=? 90))%nat then ascii_of_nat (n + 32) else a.

Fixpoint canon (upper : bool) (s : string) : string :=
  match s with
  | EmptyString => EmptyString
  | String a s' =>
      let c := if upper then to_upper a else to_lower a in
      String c (canon (Ascii.eqb c "-"%char) s')
  end.

(** [textproto.CanonicalMIMEHeaderKey(s)]: a name with a byte that is not
    allowed is returned as it is; otherwise the first letter and each
    letter after a hyphen is made upper case and the others lower case. *)
Definition CanonicalMIMEHeaderKey (s : string) : string :=
  if all_valid s then canon true s else s.

End textproto.

(** [http.Header] and [url.Values]: a key maps to its values in order. *)
Abbreviation Values := (gmap string (list string)).

(** [h.Get(key)]: the first value under the canonical form of [key], the
    empty string when there is none. *)
Definition Header_Get (h : Values) (key : string) : string :=
  match h !! textproto.CanonicalMIMEHeaderKey key with
  | Some (v :: _) => v
  | _ => EmptyString
  end.

(** Values that [encoding/json] decodes into an [interface{}]. *)
#[local] Unset Elimination Schemes.
Inductive json :=
| JNull
| JBool (b : bool)
| JNumber (n : string)
| JString (s : string)
| JArray (l : list json)
| JObject (fields : list (string * json)).
#[local] Set Elimination Schemes.

(** A [map[string]interface{}] as the decoder fills it; [None] is the nil
    map of a variable that was never assigned. *)
Definition json_map := option (list (string * json)).

(** What [json.NewDecoder(r.Body).Decode(&js)] returns for a body:
    [io.EOF] when there is nothing to read, nil with the decoded map, or
    another error. *)
Inductive DecodeResult :=
| DecodeEOF
| DecodeOK (js : json_map)
| DecodeError (msg : string).

(** The part of [*http.Request] that the middlewares read.  Parsing the
    form and decoding the body are the standard library's work; a request
    carries what those calls yield for it. *)
Record Request := mkRequest {
  Method : string;
  URL_Path : string;
  RemoteAddr : string;
  Header : Values;
  Form : Values;
  ParseForm_values : Values;
  ParseForm_err : option string;
  Body_decode : DecodeResult;
}.

(** [r.ParseForm()]: fills [r.Form] and returns the error, if any. *)
Definition ParseForm (r : Request) : Request * option string :=
  (mkRequest (Method r) (URL_Path r) (RemoteAddr r) (Header r)
     (ParseForm_values r) (ParseForm_values r) (ParseForm_err r)
     (Body_decode r),
   ParseForm_err r).

(** ** The context, the response writer, the log *)

(** A [log15.Logger]: the root logger or one made by [New] with a context. *)
Inductive Logger :=
| Root
| New (parent : Logger) (ctx : list string).

(** The dynamic types of the values that the package stores in [c.Env] or
    looks for there. *)
Inductive value :=
| VString (s : string)
| VStrings (ss : list string)
| VJSON (js : json_map)
| VLogger (l : Logger)
| VOther (repr : string).

Abbreviation Env_map := (gmap string value).

(** A call on an [http.ResponseWriter]. *)
Inductive rw_call :=
| SetHeader (k v : string)
| WriteHeader (code : Z)
| Write (body : string).

Inductive Lvl := LvlCrit | LvlError | LvlWarn | LvlInfo | LvlDebug.

(** One call of [logger.Crit], [Warn], [Info], ...: the logger it is made
    on, the level, the message and the context arguments. *)
Record LogRecord := mkLog {
  rec_logger : Logger;
  rec_lvl : Lvl;
  rec_msg : string;
  rec_ctx : list string;
}.

Record St := mkSt {
  Env : Env_map;            (* c.Env *)
  out : list rw_call;       (* calls on rw, oldest first *)
  logs : list LogRecord;    (* records emitted, oldest first *)
  reqPrefix : string;       (* var reqPrefix string *)
  reqID : Z;                (* var reqID int64 *)
}.

Definition set_Env (f : Env_map -> Env_map) (st : St) : St :=
  mkSt (f (Env st)) (out st) (logs st) (reqPrefix st) (reqID st).
Definition set_out (f : list rw_call -> list rw_call) (st : St) : St :=
  mkSt (Env st) (f (out st)) (logs st) (reqPrefix st) (reqID st).
Definition set_logs (f : list LogRecord -> list LogRecord) (st : St) : St :=
  mkSt (Env st) (out st) (f (logs st)) (reqPrefix st) (reqID st).
Definition set_reqID (f : Z -> Z) (st : St) : St :=
  mkSt (Env st) (out st) (logs st) (reqPrefix st) (f (reqID st)).

(** ** Computations that may panic *)

(** A computation returns a value or panics.  The value of a panic is kept
    as [%v] prints it; it is never nil ([recover()] returns nil only when
    there is no panic: a [panic(nil)] reaches it as a
    [*runtime.PanicNilError]). *)
Inductive outcome (A : Type) :=
| Ret (a : A)
| Panic (v : string).
Arguments Ret {A} a.
Arguments Panic {A} v.

Definition M (A : Type) : Type := St -> outcome A * St.

Definition ret {A} (a : A) : M A := fun st => (Ret a, st).

Definition bind {A B} (m : M A) (k : A -> M B) : M B :=
  fun st =>
    match m st with
    | (Ret a, st1) => k a st1
    | (Panic v, st1) => (Panic v, st1)
    end.

Definition panic {A} (v : string) : M A := fun st => (Panic v, st).

Notation "x <- m ;; k" := (bind m (fun x => k))
  (at level 90, m at level 80, k at level 200, right associativity).
Notation "m ;;; k" := (bind m (fun _ => k))
  (at level 90, k at level 200, right associativity).

(** [defer func() { if err := recover(); err != nil { k err } }()] around
    [body]: when [body] returns, [recover()] is nil; when it panics, the
    panic stops and [k] runs on its value.  A panic of [k] itself
    propagates. *)
Definition defer_recover (body : M unit) (k : string -> M unit) : M unit :=
  fun st =>
    match body st with
    | (Ret a, st1) => (Ret a, st1)
    | (Panic v, st1) => k v st1
    end.

Definition Env_get (k : string) : M (option value) :=
  fun st => (Ret (Env st !! k), st).
Definition Env_put (k : string) (v : value) : M unit :=
  fun st => (Ret tt, set_Env <[k := v]> st).
Definition rw (c : rw_call) : M unit :=
  fun st => (Ret tt, set_out (fun o => o ++ [c]) st).
Definition log_emit (l : Logger) (lvl : Lvl) (msg : string) (ctx : list string)
  : M unit :=
  fun st => (Ret tt, set_logs (fun o => o ++ [mkLog l lvl msg ctx]) st).

(** [http.Handler]: [ServeHTTP(rw, r)], the calls on [rw] going to [out]. *)
Definition Handler : Type := Request -> M unit.

(** [web.MiddlewareType] applied to its context: from the next handler to
    the handler that wraps it. *)
Definition Middleware : Type := Handler -> Handler.

(** ** Formatting *)

Module fmt.

Definition percent : ascii := "%"%char.

Definition is_verb (a : ascii) : bool :=
  Ascii.eqb a "v"%char || Ascii.eqb a "s"%char || Ascii.eqb a "d"%char.

(** [fmt.Sprintf(format, args...)] for the verbs the package uses, [%v],
    [%s] and [%d], and for [%%]; an argument is given as the text its
    verb prints.  A verb without an argument prints Go's [%!v(MISSING)];
    what Go appends for arguments left over is not printed. *)
Fixpoint Sprintf (format : string) (args : list string) : string :=
  match format with
  | EmptyString => EmptyString
  | String a rest =>
      if Ascii.eqb a percent then
        match rest with
        | EmptyString => "%!(NOVERB)"
        | String b rest' =>
            if Ascii.eqb b percent then String percent (Sprintf rest' args)
            else if is_verb b then
              match args with
              | x :: args' => x +:+ Sprintf rest' args'
              | [] => "%!" +:+ String b "(MISSING)" +:+ Sprintf rest' []
              end
            else String a (String b (Sprintf rest' args))
        end
      else String a (Sprintf rest args)
  end.

End fmt.

(** ** goji's request ID key and accessor *)

Module middleware.

(** [middleware.RequestIDKey] *)
Definition RequestIDKey : string := "reqID".

(** [middleware.GetReqID(c)]: the string under [RequestIDKey], the empty
    string when there is none or it is not a string. *)
Definition GetReqID : M string :=
  v <- Env_get RequestIDKey ;;
  match v with
  | Some (VString id) => ret id
  | _ => ret EmptyString
  end.

End middleware.

(** ** net/http *)

Module http.

Definition StatusOK : Z := 200.
Definition StatusBadRequest : Z := 400.

(** [http.Error(w, error, code)]: the content type and the nosniff
    header, the status, then the text on a line of its own
    ([fmt.Fprintln]). *)
Definition Error (error : string) (code : Z) : M unit :=
  rw (SetHeader "Content-Type" "text/plain; charset=utf-8") ;;;
  rw (SetHeader "X-Content-Type-Options" "nosniff") ;;;
  rw (WriteHeader code) ;;;
  rw (Write (error +:+ String strings.newline EmptyString)).

End http.

(** ** The response helpers *)

Definition WriteString (code : Z) (str : string) : M unit :=
  rw (SetHeader "Content-Type" "text/plain; charset=utf-8") ;;;
  rw (WriteHeader code) ;;;
  rw (Write str).

(** Produce a text/plain error response and set the context so that the
    logger shows the error.  For 500 errors a generic error is returned
    and the details are only logged. *)
Definition ErrorString (code : Z) (str : string) : M unit :=
  Env_put "err" (VString str) ;;;
  if 500 <=? code then
    id <- middleware.GetReqID ;;
    let errStr := fmt.Sprintf "Internal Error (request ID: %s)" [id] in
    http.Error errStr code
  else
    http.Error str code.

(** Convenience function to call [ErrorString] with a format string. *)
Definition Errorf (code : Z) (message : string) (args : list string) : M unit :=
  let str := fmt.Sprintf message args in
  ErrorString code str.

(** [s[n:]] on a slice: a panic when [n] exceeds the length. *)
Definition slice_from {A} (n : nat) (s : list A) : M (list A) :=
  if (n <=? length s)%nat then ret (drop n s)
  else panic "runtime error: slice bounds out of range".

(** Convenience function to produce an internal error based on [err].
    [stack] is the text that [runtime.Stack] writes into the buffer. *)
Definition ErrorInternal (stack : string) (err : option string) : M unit :=
  let lines := strings.Split stack strings.newline in
  tl <- slice_from 3 lines ;;
  Env_put "stack" (VStrings tl) ;;;
  match err with
  | Some e => ErrorString 500 e
  | None => ErrorString 500 "nil err passed into gojiutil.ErrorInternal"
  end.

(** ** goji's [mutil.WrapWriter] *)

Module mutil.

(** [basicWriter]: remembers the first status code and forwards to the
    writer it wraps. *)
Record basicWriter := mkBW {
  wroteHeader : bool;
  code : Z;
  bytes : nat;
  forwarded : list rw_call;   (* calls passed on to the wrapped writer *)
}.

Definition WrapWriter : basicWriter := mkBW false 0 0 [].

Definition do_WriteHeader (c : Z) (b : basicWriter) : basicWriter :=
  if wroteHeader b then b
  else mkBW true c (bytes b) (forwarded b ++ [WriteHeader c]).

Definition do_Write (body : string) (b : basicWriter) : basicWriter :=
  let b := do_WriteHeader http.StatusOK b in
  mkBW (wroteHeader b) (code b) (bytes b + String.length body)
       (forwarded b ++ [Write body]).

Definition call (b : basicWriter) (c : rw_call) : basicWriter :=
  match c with
  | SetHeader k v =>
      mkBW (wroteHeader b) (code b) (bytes b) (forwarded b ++ [c])
  | WriteHeader s => do_WriteHeader s b
  | Write body => do_Write body b
  end.

(** [wp.Status()] *)
Definition Status (b : basicWriter) : Z := code b.

(** Run [body] with a fresh wrapper around the current writer as its
    writer: the calls of [body] go through the wrapper, which forwards.
    The wrapper is returned when [body] returns. *)
Definition with_wrapper (body : M unit) : M basicWriter :=
  fun st =>
    let '(o, st1) := body (set_out (fun _ => []) st) in
    let wp := fold_left call (out st1) WrapWriter in
    let st2 := set_out (fun _ => out st ++ forwarded wp) st1 in
    match o with
    | Ret _ => (Ret wp, st2)
    | Panic v => (Panic v, st2)
    end.

End mutil.

(** ** The middlewares *)

(** [for k, v := range m { c.Env[k] = v }] *)
Definition range_put (m : Env_map) : M unit :=
  fun st =>
    (Ret tt, set_Env (fun env => map_fold (fun k v e => <[k := v]> e) env m) st).

(** Create a simple middleware that merges a map into [c.Env]. *)
Definition EnvAdd (m : Env_map) : Middleware := fun h r =>
  range_put m ;;;
  h r.

Definition levels : nat := 3.

(** The loop over the stack lines in [Logger15]: [n] iterations are left,
    [i] is the loop variable. *)
Fixpoint stack_levels (n i : nat) (s ctx : list string) : M (list string) :=
  match n with
  | O => ret ctx
  | S n' =>
      if ((i <? levels) && (2 * i + 1 <? length s))%nat then
        match s !! (2 * i)%nat, s !! (2 * i + 1)%nat with
        | Some fl, Some sl =>
            match strings.Index fl "(" with
            | Some k =>
                let funcName := String.substring 0 k fl in
                let sourceLine := strings.TrimLeft sl strings.tab in
                stack_levels n' (i + 1) s
                  (ctx ++ [fmt.Sprintf "stack%d" [strconv.Itoa (Z.of_nat i)];
                           funcName +:+ " @ " +:+ sourceLine])
            | None => panic "runtime error: slice bounds out of range"
            end
        | _, _ => panic "runtime error: index out of range"
        end
      else ret ctx
  end.

(** The case [[]string] of the switch on [c.Env["stack"]]. *)
Definition stack_fields (s ctx : list string) : M (list string) :=
  match s with
  | [] => panic "runtime error: index out of range"
  | s0 :: _ =>
      let s := if strings.HasPrefix s0 "goroutine" && (3 <? length s)%nat
               then drop 3 s else s in
      stack_levels levels 0 s ctx
  end.

(** Create a logger middleware that logs HTTP requests and results to
    log15.  [elapsed] is [time.Now().Sub(start).String()]. *)
Definition Logger15 (elapsed : string) (logger : Logger) : Middleware := fun h r =>
  let ctx := [] in
  (* record info about the request *)
  id <- middleware.GetReqID ;;
  let ctx := if String.eqb id EmptyString then ctx else ctx ++ ["req"; id] in
  let ctx := ctx ++ ["verb"; Method r] in
  let path := URL_Path r in
  let ip := RemoteAddr r in
  let ctx := if String.eqb ip EmptyString then ctx else ctx ++ ["ip"; ip] in
  (* call handler down the stack with a wrapper writer *)
  wp <- mutil.with_wrapper (h r) ;;
  let ctx := ctx ++ ["time"; elapsed] in
  (* record info about the response *)
  let s := mutil.Status wp in
  let ctx := ctx ++ ["status"; strconv.Itoa s] in
  e <- Env_get "err" ;;
  let ctx := match e with Some (VString e) => ctx ++ ["err"; e] | _ => ctx end in
  if 500 <=? s then
    stack <- Env_get "stack" ;;
    ctx <- match stack with
           | Some (VString s) => ret (ctx ++ ["stack"; s])
           | Some (VStrings s) => stack_fields s ctx
           | _ => ret ctx
           end ;;
    log_emit logger LvlCrit path ctx
  else if 400 <=? s then
    log_emit logger LvlWarn path ctx
  else
    log_emit logger LvlInfo path ctx.

(** Create a panic-catching middleware that ensures the server doesn't
    die if one of the handlers panics.  [stack] is the text that
    [runtime.Stack] writes into the buffer. *)
Definition Recoverer (stack : string) : Middleware := fun h r =>
  defer_recover (h r) (fun err =>
    let lines := strings.Split stack strings.newline in
    tl <- slice_from 3 lines ;;
    Env_put "stack" (VStrings tl) ;;;
    Errorf 500 "panic: %v" [err]).

(** FormParser simply calls [Request.ParseForm]. *)
Definition FormParser : Middleware := fun h r =>
  let '(r, err) := ParseForm r in
  match err with
  | Some e =>
      (* we assume any errors are due to the request, not internal *)
      ErrorString http.StatusBadRequest e
  | None => h r
  end.

Definition RequestIDHeader : string := "X-Request-Id".

(** [atomic.AddInt64(&reqID, delta)]: one indivisible step that returns
    the new value. *)
Definition atomic_AddInt64_reqID (delta : Z) : M Z :=
  fun st =>
    let n := wrap64 (reqID st + delta) in
    (Ret n, set_reqID (fun _ => n) st).

Definition get_reqPrefix : M string := fun st => (Ret (reqPrefix st), st).

(** RequestID injects a request ID into the context of each request. *)
Definition RequestID : Middleware := fun h r =>
  let id := Header_Get (Header r) RequestIDHeader in
  id <- (if String.eqb id EmptyString then
           p <- get_reqPrefix ;;
           n <- atomic_AddInt64_reqID 1 ;;
           ret (fmt.Sprintf "%s-%d" [p; strconv.FormatInt n])
         else ret id) ;;
  Env_put middleware.RequestIDKey (VString id) ;;;
  h r.

(** ContextLog is the key under which ContextLogger places the logger. *)
Definition ContextLog : string := "log".

(** ContextLogger injects a log15 logger that prints the request ID. *)
Definition ContextLogger : Middleware := fun h r =>
  v <- Env_get middleware.RequestIDKey ;;
  match v with
  | Some (VString id) => Env_put ContextLog (VLogger (New Root ["req"; id]))
  | _ => ret tt
  end ;;;
  h r.

(** GetJSONBody reads and parses an application/json body and stores it
    in [c.Env["json"]]. *)
Definition GetJSONBody : Middleware := fun h r =>
  (* parse content-length header *)
  let clh := Header_Get (Header r) "content-length" in
  match (if String.eqb clh EmptyString then inl 0 else strconv.Atoi clh) with
  | inr err => ErrorString 400 ("Invalid content-length: " +:+ err)
  | inl cl =>
      (* parse content-type header *)
      let ct := Header_Get (Header r) "content-type" in
      if negb (String.eqb ct EmptyString)
         && negb (String.eqb ct "application/json")
      then ErrorString 400 ("Invalid content-type '" +:+ ct
                            +:+ "', application/json expected")
      else
        (* try to read body *)
        let body :=
          match Body_decode r with
          | DecodeEOF =>
              if negb (cl =? 0) then inr "Premature EOF reading post body"
              else inl None   (* got no body, so we're OK *)
          | DecodeOK js => inl js
          | DecodeError msg => inr ("Cannot parse JSON request body: " +:+ msg)
          end in
        match body with
        | inr e => ErrorString 400 e
        | inl js => Env_put "json" (VJSON js) ;;; h r
        end
  end.

(** ** Package initialisation: the request ID prefix *)

Module base64.

Definition encodeStd : string :=
  "ABCDEFGHIJKLMNOPQRSTUVWXYZabcdefghijklmnopqrstuvwxyz0123456789+/".

Definition enc (v : N) : ascii :=
  match String.get (N.to_nat (N.land v 63)) encodeStd with
  | Some a => a
  | None => "="%char
  end.

Definition pad : ascii := "="%char.

(** [base64.StdEncoding.EncodeToString(src)] *)
Fixpoint EncodeToString (src : list Byte.byte) : string :=
  match src with
  | [] => EmptyString
  | [b0] =>
      let val := N.shiftl (Byte.to_N b0) 16 in
      String (enc (N.shiftr val 18)) (String (enc (N.shiftr val 12))
        (String pad (String pad EmptyString)))
  | [b0; b1] =>
      let val := N.lor (N.shiftl (Byte.to_N b0) 16) (N.shiftl (Byte.to_N b1) 8) in
      String (enc (N.shiftr val 18)) (String (enc (N.shiftr val 12))
        (String (enc (N.shiftr val 6)) (String pad EmptyString)))
  | b0 :: b1 :: b2 :: rest =>
      let val := N.lor (N.lor (N.shiftl (Byte.to_N b0) 16)
                              (N.shiftl (Byte.to_N b1) 8)) (Byte.to_N b2) in
      String (enc (N.shiftr val 18)) (String (enc (N.shiftr val 12))
        (String (enc (N.shiftr val 6)) (String (enc val)
          (EncodeToString rest))))
  end.

End base64.

(** The replacer of [init]: every plus sign and every slash is taken out. *)
Fixpoint drop_plus_slash (s : string) : string :=
  match s with
  | EmptyString => EmptyString
  | String a s' =>
      if Ascii.eqb a "+"%char || Ascii.eqb a "/"%char then drop_plus_slash s'
      else String a (drop_plus_slash s')
  end.

(** The loop of [init]: [reads] are the buffers that the successive calls
    of [rand.Read] fill, 12 bytes each.  The loop ends at the first one
    whose encoding keeps 10 characters; [None] when [reads] has none. *)
Fixpoint init_prefix (reads : list (list Byte.byte)) : option string :=
  match reads with
  | [] => None
  | buf :: reads' =>
      let b64 := drop_plus_slash (base64.EncodeToString buf) in
      if (String.length b64 <? 10)%nat then init_prefix reads'
      else Some (String.substring 0 10 b64)
  end.

(** The package variables once [init] has run, in a state with an empty
    context and nothing written or logged yet. *)
Definition init (reads : list (list Byte.byte)) : option St :=
  p ← init_prefix reads; Some (mkSt ∅ [] [] p 0).

(** A new request gets its own context and response writer; the package
    variables and the log go on. *)
Definition new_request (st : St) : St :=
  mkSt ∅ [] (logs st) (reqPrefix st) (reqID st).

(** ** The earlier revision, [src/middleware.go] *)

Module Rev1.

(** A [log15.Ctx] given as the only context argument: log15 turns the
    map into key and value arguments, in the order of the map. *)
Definition Ctx_args (ctx : gmap string string) : list string :=
  flat_map (fun kv => [kv.1; kv.2]) (map_to_list ctx).

(** The logger given to [Logger15] has no name in this revision: the
    records go to the package functions [log15.Crit], [log15.Warn] and
    [log15.Info], that is to the root logger.  The values of the context
    are kept as the log prints them. *)
Definition Logger15 (elapsed : string) (_ : Logger) : Middleware := fun h r =>
  let ctx : gmap string string := ∅ in
  let ctx := <["verb" := Method r]> ctx in
  let path := URL_Path r in
  id <- middleware.GetReqID ;;
  let ctx := if String.eqb id EmptyString then ctx else <["id" := id]> ctx in
  let ip := RemoteAddr r in
  let ctx := if String.eqb ip EmptyString then ctx else <["ip" := ip]> ctx in
  wp <- mutil.with_wrapper (h r) ;;
  let ctx := <["time" := elapsed]> ctx in
  let s := mutil.Status wp in
  let ctx := <["status" := strconv.Itoa s]> ctx in
  e <- Env_get "err" ;;
  let ctx := match e with Some (VString e) => <["err" := e]> ctx | _ => ctx end in
  if 500 <=? s then
    stack <- Env_get "stack" ;;
    let ctx := match stack with
               | Some (VString s) => <["stack" := s]> ctx
               | _ => ctx
               end in
    log_emit Root LvlCrit path (Ctx_args ctx)
  else if 400 <=? s then
    log_emit Root LvlWarn path (Ctx_args ctx)
  else
    log_emit Root LvlInfo path (Ctx_args ctx).

(** The stack is stored as one string, the line ends replaced. *)
Definition Recoverer (stack : string) : Middleware := fun h r =>
  defer_recover (h r) (fun err =>
    Env_put "stack" (VString (strings.Replace stack strings.newline " || ")) ;;;
    Errorf 500 "panic: %v" [err]).

(** The counter [reqid] starts at the Unix time of the start of the
    process; the identifier is the counter alone. *)
Definition RequestID : Middleware := fun h r =>
  let id := Header_Get (Header r) RequestIDHeader in
  id <- (if String.eqb id EmptyString then
           n <- atomic_AddInt64_reqID 1 ;;
           ret (strconv.FormatInt n)
         else ret id) ;;
  Env_put middleware.RequestIDKey (VString id) ;;;
  h r.

End Rev1.

(** ** Requests and handlers to run the definitions on *)

Definition request (method path : string) (header : Values)
    (form_err : option string) (body : DecodeResult) : Request :=
  mkRequest method path "10.0.0.1:4000" header ∅ ∅ form_err body.

Definition st0 : St := mkSt ∅ [] [] "AbCdEfGhIj" 0.

(** A handler that answers 200 with a short body. *)
Definition h_ok : Handler := fun _ => rw (Write "13 characters").

(** A handler that panics before writing anything. *)
Definition h_panic : Handler := fun _ => panic "boom".


Definition stack_text : string :=
  let nl := String strings.newline EmptyString in
  let tb := String strings.tab EmptyString in
  "goroutine 5 [running]:" +:+ nl +:+
  "gojiutil.Recoverer.func1.1()" +:+ nl +:+
  tb +:+ "/go/src/gojiutil/middleware.go:163 +0x6f" +:+ nl +:+
  "main.boom(0x1)" +:+ nl +:+
  tb +:+ "/go/src/app/main.go:12 +0x40" +:+ nl.

(** Two reads of the random source: the encoding of the first keeps 8
    characters only, that of the second 14. *)
Definition sample_reads : list (list Byte.byte) :=
  [[Byte.xfb; Byte.xef; Byte.xbe; Byte.xfb; Byte.xef; Byte.xbe;
    Byte.x00; Byte.x10; Byte.x83; Byte.x10; Byte.x51; Byte.x87];
   [Byte.x00; Byte.x01; Byte.xff; Byte.xfe; Byte.x10; Byte.x20;
    Byte.x30; Byte.x40; Byte.x50; Byte.x60; Byte.x70; Byte.x80]].

(** Three requests: without an identifier, with one, without one. *)
Definition sample_requests : list Request :=
  [request "GET" "/a" ∅ None DecodeEOF;
   request "GET" "/b" {["X-Request-Id" := ["abc-7"]]} None DecodeEOF;
   request "GET" "/c" ∅ None DecodeEOF].

(** ** Vocabulary of the statements *)

(** The calls that [http.Error(w, msg, code)] makes on the writer. *)
Definition error_calls (msg : string) (code : Z) : list rw_call :=
  [SetHeader "Content-Type" "text/plain; charset=utf-8";
   SetHeader "X-Content-Type-Options" "nosniff";
   WriteHeader code;
   Write (msg +:+ String strings.newline EmptyString)].

(** The request ID that [middleware.GetReqID] finds in an [Env]. *)
Definition reqid_of (env : Env_map) : string :=
  match env !! middleware.RequestIDKey with
  | Some (VString id) => id
  | _ => EmptyString
  end.

(** The body of the response to an error of status 500 and above. *)
Definition internal_error_text (env : Env_map) : string :=
  "Internal Error (request ID: " +:+ reqid_of env +:+ ")".

(** What is left when [Recoverer] has dealt with a panic of value [v] that
    left the state [st1]: the stack [stk] and the error text are in
    [c.Env], the calls of [http.Error] with status 500 follow those of the
    handler, and nothing else has changed. *)
Definition recovered (stk : value) (v : string) (st1 : St) : St :=
  let env := <["err" := VString ("panic: " +:+ v)]> (<["stack" := stk]> (Env st1)) in
  mkSt env (out st1 ++ error_calls (internal_error_text env) 500)
       (logs st1) (reqPrefix st1) (reqID st1).

(** The status that the wrapper of [Logger15] reports for the calls that
    the handler made on it. *)
Definition status_of (calls : list rw_call) : Z :=
  mutil.Status (fold_left mutil.call calls mutil.WrapWriter).

(** The calls that the wrapper passes on. *)
Definition forwarded_of (calls : list rw_call) : list rw_call :=
  mutil.forwarded (fold_left mutil.call calls mutil.WrapWriter).

(** The lines that the loop of [Logger15] cuts at the first parenthesis
    all have one. *)
Fixpoint frames_ok (n i : nat) (s : list string) : bool :=
  match n with
  | O => true
  | S n' =>
      if ((i <? levels) && (2 * i + 1 <? length s))%nat then
        match s !! (2 * i)%nat with
        | Some fl =>
            match strings.Index fl "(" with
            | Some _ => frames_ok n' (i + 1) s
            | None => false
            end
        | None => false
        end
      else true
  end.

(** A stack slice that [Logger15] formats without a run-time error: it is
    not empty, and each of the up to three function lines it reads holds
    an opening parenthesis. *)
Definition stack_ok (s : list string) : bool :=
  match s with
  | [] => false
  | s0 :: _ =>
      frames_ok levels 0
        (if strings.HasPrefix s0 "goroutine" && (3 <? length s)%nat
         then drop 3 s else s)
  end.

(** The request carries no request ID of its own. *)
Definition fallback (r : Request) : bool :=
  String.eqb (Header_Get (Header r) RequestIDHeader) EmptyString.

(** The handler cannot reach the unexported package variables. *)
Definition preserves_pkg (h : Handler) : Prop :=
  forall r st, reqID (h r st).2 = reqID st /\ reqPrefix (h r st).2 = reqPrefix st.

(** One request served by [RequestID] over [h], and the state in which
    [RequestID] hands over to the next handler (observed with a next
    handler that returns at once). *)
Definition serve (h : Handler) (r : Request) (st : St) : St :=
  (RequestID h r (new_request st)).2.

Definition handed_over (r : Request) (st : St) : St :=
  (RequestID (fun _ => ret tt) r (new_request st)).2.

(** The requests of a process in the order of their atomic steps, each
    with the state that its next handler starts in. *)
Fixpoint run (h : Handler) (rs : list Request) (st : St) : list (Request * St) :=
  match rs with
  | [] => []
  | r :: rs' => (r, handed_over r st) :: run h rs' (serve h r st)
  end.

Definition final (h : Handler) (rs : list Request) (st : St) : St :=
  fold_left (fun st r => serve h r st) rs st.

(** The content-length header is absent, or it reads as zero. *)
Definition content_length_zero (r : Request) : Prop :=
  let clh := Header_Get (Header r) "content-length" in
  clh = EmptyString \/ strconv.Atoi clh = inl 0.

(** The content-type header is absent or application/json. *)
Definition content_type_json (r : Request) : Prop :=
  let ct := Header_Get (Header r) "content-type" in
  ct = EmptyString \/ ct = "application/json".

(** The level that [Logger15] logs a status at. *)
Definition level_of (s : Z) (lvl : Lvl) : Prop :=
  (500 <= s -> lvl = LvlCrit) /\
  (400 <= s < 500 -> lvl = LvlWarn) /\
  (s < 400 -> lvl = LvlInfo).

(** The context arguments that [Logger15] has collected when it looks at
    the status: [env0] is [c.Env] before the handler ran, [env1] after. *)
Definition ctx_of (r : Request) (env0 env1 : Env_map) (elapsed : string) (s : Z)
  : list string :=
  let id := reqid_of env0 in
  let ctx := [] in
  let ctx := if String.eqb id EmptyString then ctx else ctx ++ ["req"; id] in
  let ctx := ctx ++ ["verb"; Method r] in
  let ctx := if String.eqb (RemoteAddr r) EmptyString then ctx
             else ctx ++ ["ip"; RemoteAddr r] in
  let ctx := ctx ++ ["time"; elapsed] in
  let ctx := ctx ++ ["status"; strconv.Itoa s] in
  match env1 !! "err" with
  | Some (VString e) => ctx ++ ["err"; e]
  | _ => ctx
  end.

(** ** ParamsLogger *)

(** The loop of [ParamsLogger] over [r.Form]: a key and its first value
    are appended for each entry; [v[0]] panics on a key without values. *)
Fixpoint form_params (kvs : list (string * list string)) (params : list string)
  : M (list string) :=
  match kvs with
  | [] => ret params
  | (k, v) :: kvs' =>
      match v with
      | [] => panic "runtime error: index out of range"
      | v0 :: _ => form_params kvs' (params ++ [k; v0])
      end
  end.

(** The verb [%+v] on a slice of strings: the elements between brackets,
    a space between two. *)
Fixpoint join_space (l : list string) : string :=
  match l with
  | [] => EmptyString
  | [x] => x
  | x :: l' => x +:+ " " +:+ join_space l'
  end.

Definition fmt_slice (l : list string) : string := "[" +:+ join_space l +:+ "]".

(** ParamsLogger logs all query string / form parameters at the start of a
    request, with [Debug], on the logger under [c.Env[ContextLog]] when
    there is one and on the root logger otherwise.  The entries of [r.Form]
    are visited in the order of the map.  [urlparams] and [env] are the
    texts that [%+v] prints for [c.URLParams] and [c.Env]. *)
Definition ParamsLogger (urlparams env : string) (verbose : bool) : Middleware :=
  fun h r =>
    params <- form_params (map_to_list (Form r)) [] ;;
    l <- Env_get ContextLog ;;
    let log := match l with Some (VLogger log) => log | _ => Root end in
    (if verbose then
       log_emit log LvlDebug ("Begin " +:+ Method r +:+ " " +:+ URL_Path r)
         ["params"; fmt_slice params; "URLParams"; urlparams; "Env"; env]
     else
       log_emit log LvlDebug ("Begin " +:+ Method r +:+ " " +:+ URL_Path r) params) ;;;
    h r.

(** ** More vocabulary *)

(** A letter or a digit. *)
Definition alnum (a : ascii) : bool :=
  let n := nat_of_ascii a in
  (((48 <=? n) && (n <=? 57)) || ((65 <=? n) && (n <=? 90))
   || ((97 <=? n) && (n <=? 122)))%nat.

Fixpoint all_alnum (s : string) : bool :=
  match s with
  | EmptyString => true
  | String a s' => alnum a && all_alnum s'
  end.

(** A character of the standard base64 alphabet. *)
Definition b64char (a : ascii) : bool :=
  alnum a || Ascii.eqb a "+"%char || Ascii.eqb a "/"%char.

Fixpoint all_b64 (s : string) : bool :=
  match s with
  | EmptyString => true
  | String a s' => b64char a && all_b64 s'
  end.

(** The status that a writer takes from a sequence of calls: that of the
    first [WriteHeader], 200 when a [Write] comes first, 0 when the
    response is never started. *)
Fixpoint first_status (calls : list rw_call) : Z :=
  match calls with
  | [] => 0
  | SetHeader _ _ :: calls' => first_status calls'
  | WriteHeader c :: _ => c
  | Write _ :: _ => 200
  end.

(** The calls of a handler that starts its response once: no [WriteHeader]
    after the response has started. *)
Fixpoint starts_once (started : bool) (calls : list rw_call) : bool :=
  match calls with
  | [] => true
  | SetHeader _ _ :: calls' => starts_once started calls'
  | WriteHeader _ :: calls' => negb started && starts_once true calls'
  | Write _ :: calls' => started && starts_once true calls'
  end.

(** The response has been started: a call other than setting a header
    has been made. *)
Fixpoint started (calls : list rw_call) : bool :=
  match calls with
  | [] => false
  | SetHeader _ _ :: calls' => started calls'
  | _ :: _ => true
  end.


(** A handler that answers 200 and then panics. *)
Definition h_late_panic : Handler := fun _ =>
  rw (WriteHeader 200) ;;; rw (Write "partial") ;;; panic "late".

(** A handler that writes nothing. *)
Definition h_silent : Handler := fun _ => ret tt.

(** * Properties *)

(** ** Running the response helpers *)

Lemma append_cons a (s t : string) : String a s +:+ t = String a (s +:+ t).
Proof. reflexivity. Qed.

Lemma append_empty_r (s : string) : s +:+ EmptyString = s.
Proof.
  induction s as [|a s IH]; [reflexivity|]. now rewrite append_cons, IH.
Qed.

Lemma append_assoc (a b c : string) : (a +:+ b) +:+ c = a +:+ (b +:+ c).
Proof.
  induction a as [|x a IH]; [reflexivity|]. now rewrite !append_cons, IH.
Qed.

Lemma http_Error_run msg code st :
  http.Error msg code st = (Ret tt, set_out (fun o => o ++ error_calls msg code) st).
Proof.
  destruct st as [env o l p n]. unfold http.Error, bind, rw, set_out, error_calls.
  simpl. now rewrite <- !app_assoc.
Qed.

Lemma GetReqID_run st : middleware.GetReqID st = (Ret (reqid_of (Env st)), st).
Proof.
  unfold middleware.GetReqID, bind, Env_get, reqid_of.
  destruct (Env st !! middleware.RequestIDKey) as [[]|]; reflexivity.
Qed.

Lemma Sprintf_internal_error id :
  fmt.Sprintf "Internal Error (request ID: %s)" [id]
  = "Internal Error (request ID: " +:+ id +:+ ")".
Proof. reflexivity. Qed.

Lemma Sprintf_panic v : fmt.Sprintf "panic: %v" [v] = "panic: " +:+ v.
Proof.
  change (fmt.Sprintf "panic: %v" [v]) with ("panic: " +:+ (v +:+ EmptyString)).
  now rewrite append_empty_r.
Qed.

Lemma Sprintf_reqid p n : fmt.Sprintf "%s-%d" [p; n] = p +:+ "-" +:+ n.
Proof.
  change (fmt.Sprintf "%s-%d" [p; n]) with (p +:+ "-" +:+ (n +:+ EmptyString)).
  now rewrite append_empty_r.
Qed.

(** [ErrorString] with a status of 500 and above. *)
Lemma ErrorString_internal code str st :
  500 <= code ->
  ErrorString code str st
  = (Ret tt,
     let env := <["err" := VString str]> (Env st) in
     mkSt env (out st ++ error_calls (internal_error_text env) code)
          (logs st) (reqPrefix st) (reqID st)).
Proof.
  intros Hc. unfold ErrorString, bind, Env_put.
  apply Z.leb_le in Hc. rewrite Hc, GetReqID_run, Sprintf_internal_error.
  now rewrite http_Error_run.
Qed.

(** [ErrorString] with a status below 500. *)
Lemma ErrorString_client code str st :
  code < 500 ->
  ErrorString code str st
  = (Ret tt,
     mkSt (<["err" := VString str]> (Env st)) (out st ++ error_calls str code)
          (logs st) (reqPrefix st) (reqID st)).
Proof.
  intros Hc. unfold ErrorString, bind, Env_put.
  apply Z.leb_gt in Hc. rewrite Hc. now rewrite http_Error_run.
Qed.

Lemma reqid_of_insert_ne k v env :
  k <> middleware.RequestIDKey -> reqid_of (<[k := v]> env) = reqid_of env.
Proof. intros Hk. unfold reqid_of. now rewrite lookup_insert_ne. Qed.

Lemma Split_length_pos s sep : (1 <= length (strings.Split s sep))%nat.
Proof.
  induction s as [|a s IH]; simpl; [lia|].
  destruct (Ascii.eqb a sep); simpl; [lia|].
  destruct (strings.Split s sep); simpl; lia.
Qed.

(** ** Recoverer *)

Lemma Errorf_panic_run stk v st1 :
  Errorf 500 "panic: %v" [v] (set_Env <["stack" := stk]> st1)
  = (Ret tt, recovered stk v st1).
Proof.
  unfold Errorf. rewrite Sprintf_panic, ErrorString_internal by lia. reflexivity.
Qed.

(** A handler that returns is left alone, in both revisions. *)
Lemma Recoverer_transparent stack h r st st1 :
  h r st = (Ret tt, st1) ->
  Recoverer stack h r st = (Ret tt, st1)
  /\ Rev1.Recoverer stack h r st = (Ret tt, st1).
Proof.
  intros Hh. unfold Recoverer, Rev1.Recoverer, defer_recover. now rewrite Hh.
Qed.



(** ** ErrorString *)

(** C8: with a status of 500 and above the calls on the response writer
    are those of [http.Error] with the text
    [Internal Error (request ID: <id>)] (to which [http.Error] adds a line
    end): they are the same for any two detail strings, while
    [c.Env["err"]] holds the detail string itself. *)
Theorem ErrorString_hides_detail (code : Z) (st : St) (str1 str2 : string) :
  500 <= code ->
  out (ErrorString code str1 st).2 = out (ErrorString code str2 st).2
  /\ out (ErrorString code str1 st).2
     = out st ++
       [SetHeader "Content-Type" "text/plain; charset=utf-8";
        SetHeader "X-Content-Type-Options" "nosniff";
        WriteHeader code;
        Write ("Internal Error (request ID: " +:+ reqid_of (Env st) +:+ ")"
               +:+ String strings.newline EmptyString)]
  /\ Env (ErrorString code str1 st).2 !! "err" = Some (VString str1)
  /\ (ErrorString code str1 st).1 = Ret tt.
Proof.
  intros Hc. rewrite !ErrorString_internal by assumption. simpl.
  unfold internal_error_text, error_calls.
  rewrite !reqid_of_insert_ne by discriminate.
  rewrite !append_assoc. repeat split. apply lookup_insert_eq.
Qed.

Lemma ErrorString_hides_detail_witness :
  500 <= 503
  /\ out (ErrorString 503 "dial tcp 10.1.2.3:5432: refused" st0).2
     = out (ErrorString 503 "open /etc/app/key.pem: denied" st0).2
  /\ Env (ErrorString 503 "dial tcp 10.1.2.3:5432: refused" st0).2 !! "err"
     = Some (VString "dial tcp 10.1.2.3:5432: refused").
Proof.
  assert (H : 500 <= 503) by lia.
  destruct (ErrorString_hides_detail 503 st0 "dial tcp 10.1.2.3:5432: refused"
              "open /etc/app/key.pem: denied" H) as (H1 & _ & H3 & _).
  exact (conj H (conj H1 H3)).
Defined.

(** ** Logger15 *)

Lemma stack_levels_ok n i s ctx :
  frames_ok n i s = true ->
  exists ctx', forall st, stack_levels n i s ctx st = (Ret (ctx ++ ctx'), st).
Proof.
  revert i ctx. induction n as [|n IH]; intros i ctx Hok;
    cbn [frames_ok stack_levels] in *.
  - exists []. intros st. now rewrite app_nil_r.
  - destruct ((i <? levels)%nat && (2 * i + 1 <? length s)%nat) eqn:Hg.
    + destruct (s !! (2 * i)%nat) as [fl|] eqn:Hfl; [|discriminate].
      destruct (s !! (2 * i + 1)%nat) as [sl|] eqn:Hsl.
      * destruct (strings.Index fl "(") as [k|]; [|discriminate].
        destruct (IH _ (ctx ++ [fmt.Sprintf "stack%d" [strconv.Itoa (Z.of_nat i)];
                     String.substring 0 k fl +:+ " @ "
                       +:+ strings.TrimLeft sl strings.tab]) Hok) as [c Hc].
        eexists. intros st. rewrite Hc, <- app_assoc. reflexivity.
      * apply andb_true_iff in Hg as [_ Hg]. apply Nat.ltb_lt in Hg.
        apply lookup_ge_None in Hsl. lia.
    + exists []. intros st. now rewrite app_nil_r.
Qed.

Lemma stack_levels_bad n i s ctx st :
  frames_ok n i s = false ->
  exists v st', stack_levels n i s ctx st = (Panic v, st').
Proof.
  revert i ctx. induction n as [|n IH]; intros i ctx Hok;
    cbn [frames_ok stack_levels] in *; [discriminate|].
  destruct ((i <? levels)%nat && (2 * i + 1 <? length s)%nat); [|discriminate].
  destruct (s !! (2 * i)%nat) as [fl|]; [|now eexists _, _].
  destruct (s !! (2 * i + 1)%nat) as [sl|]; [|now eexists _, _].
  destruct (strings.Index fl "(") as [k|]; [|now eexists _, _].
  now apply IH.
Qed.

Lemma stack_fields_ok s ctx :
  stack_ok s = true ->
  exists ctx', forall st, stack_fields s ctx st = (Ret (ctx ++ ctx'), st).
Proof.
  destruct s as [|s0 s]; [discriminate|]. unfold stack_ok, stack_fields.
  apply stack_levels_ok.
Qed.

(** [stack_ok] is exact: on any other slice the formatting panics. *)
Lemma stack_fields_bad s ctx st :
  stack_ok s = false -> exists v st', stack_fields s ctx st = (Panic v, st').
Proof.
  destruct s as [|s0 s]; [now eexists _, _|]. unfold stack_ok, stack_fields.
  apply stack_levels_bad.
Qed.

Lemma level_of_crit s : 500 <= s -> level_of s LvlCrit.
Proof. unfold level_of. intros. repeat split; intros; try reflexivity; lia. Qed.

Lemma level_of_warn s : 400 <= s < 500 -> level_of s LvlWarn.
Proof. unfold level_of. intros. repeat split; intros; try reflexivity; lia. Qed.

Lemma level_of_info s : s < 400 -> level_of s LvlInfo.
Proof. unfold level_of. intros. repeat split; intros; try reflexivity; lia. Qed.

(** [Logger15] over a handler that returns. *)
Lemma Logger15_returns el lg (h : Handler) r st st1 :
  h r (set_out (fun _ => []) st) = (Ret tt, st1) ->
  (forall s, 500 <= status_of (out st1) ->
             Env st1 !! "stack" = Some (VStrings s) -> stack_ok s = true) ->
  exists lvl extra,
    Logger15 el lg h r st
    = (Ret tt,
       mkSt (Env st1) (out st ++ forwarded_of (out st1))
            (logs st1 ++
             [mkLog lg lvl (URL_Path r)
                (ctx_of r (Env st) (Env st1) el (status_of (out st1)) ++ extra)])
            (reqPrefix st1) (reqID st1))
    /\ level_of (status_of (out st1)) lvl
    /\ (status_of (out st1) < 500 -> extra = []).
Proof.
  intros Hh Hstack. unfold Logger15.
  unfold bind at 1. rewrite GetReqID_run.
  unfold bind at 1. unfold mutil.with_wrapper. rewrite Hh.
  fold (status_of (out st1)). fold (forwarded_of (out st1)).
  set (s := status_of (out st1)) in *.
  unfold bind at 1. unfold Env_get at 1. cbn [Env set_out].
  fold (ctx_of r (Env st) (Env st1) el s).
  set (ctx := ctx_of r (Env st) (Env st1) el s).
  destruct (500 <=? s) eqn:H5.
  - apply Z.leb_le in H5. exists LvlCrit.
    unfold bind at 1. unfold Env_get at 1. cbn [Env set_out].
    destruct (Env st1 !! "stack") as [[s'|ss|js|l|o]|] eqn:Hs;
      try (exists []; rewrite app_nil_r; split;
           [reflexivity | split; [now apply level_of_crit | lia]]).
    + exists ["stack"; s']. split; [reflexivity|].
      split; [now apply level_of_crit | lia].
    + destruct (stack_fields_ok ss ctx (Hstack ss H5 eq_refl)) as [c Hc].
      exists c. unfold bind at 1. rewrite Hc.
      split; [reflexivity|]. split; [now apply level_of_crit | lia].
  - apply Z.leb_gt in H5. exists (if 400 <=? s then LvlWarn else LvlInfo), [].
    rewrite app_nil_r. destruct (400 <=? s) eqn:H4.
    + apply Z.leb_le in H4. split; [reflexivity|].
      split; [apply level_of_warn; lia | reflexivity].
    + apply Z.leb_gt in H4. split; [reflexivity|].
      split; [apply level_of_info; lia | reflexivity].
Qed.

(** A panic of the handler goes through [Logger15]: nothing is logged. *)
Lemma Logger15_panics el lg (h : Handler) r st st1 v :
  h r (set_out (fun _ => []) st) = (Panic v, st1) ->
  Logger15 el lg h r st
  = (Panic v, set_out (fun _ => out st ++ forwarded_of (out st1)) st1).
Proof.
  intros Hh. unfold Logger15.
  unfold bind at 1. rewrite GetReqID_run.
  unfold bind at 1. unfold mutil.with_wrapper. now rewrite Hh.
Qed.

(** In the revision of [src/middleware.go] the record goes to the root
    logger whatever logger is given, and a handler that returns is all it
    takes: the stack is only ever copied. *)
Lemma Rev1_Logger15_logs_to_root el lg (h : Handler) r st st1 :
  h r (set_out (fun _ => []) st) = (Ret tt, st1) ->
  exists lvl ctx,
    Rev1.Logger15 el lg h r st
    = (Ret tt,
       mkSt (Env st1) (out st ++ forwarded_of (out st1))
            (logs st1 ++ [mkLog Root lvl (URL_Path r) ctx])
            (reqPrefix st1) (reqID st1))
    /\ level_of (status_of (out st1)) lvl.
Proof.
  intros Hh. unfold Rev1.Logger15.
  unfold bind at 1. rewrite GetReqID_run.
  unfold bind at 1. unfold mutil.with_wrapper. rewrite Hh.
  fold (status_of (out st1)). fold (forwarded_of (out st1)).
  set (s := status_of (out st1)) in *.
  unfold bind at 1. unfold Env_get at 1. cbn [Env set_out].
  destruct (500 <=? s) eqn:H5.
  - apply Z.leb_le in H5. exists LvlCrit. eexists.
    split; [reflexivity | now apply level_of_crit].
  - apply Z.leb_gt in H5. exists (if 400 <=? s then LvlWarn else LvlInfo).
    destruct (400 <=? s) eqn:H4; eexists.
    + apply Z.leb_le in H4. split; [reflexivity | apply level_of_warn; lia].
    + apply Z.leb_gt in H4. split; [reflexivity | apply level_of_info; lia].
Qed.




(** [Recoverer] inside [Logger15], as [AddCommon15] installs them: the
    panic of the handler ends as a 500 and one Crit record with the panic
    value and the first frame of the stack. *)
Example Logger15_over_Recoverer :
  Logger15 "1.2ms" Root (Recoverer stack_text h_panic)
    (request "POST" "/" ∅ None DecodeEOF) st0
  = (Ret tt,
     mkSt (<["err" := VString "panic: boom"]>
             (<["stack" := VStrings ["main.boom(0x1)";
                                     String strings.tab "/go/src/app/main.go:12 +0x40";
                                     EmptyString]]> ∅))
          (error_calls "Internal Error (request ID: )" 500)
          [mkLog Root LvlCrit "/"
             ["verb"; "POST"; "ip"; "10.0.0.1:4000"; "time"; "1.2ms";
              "status"; "500"; "err"; "panic: boom";
              "stack0"; "main.boom @ /go/src/app/main.go:12 +0x40"]]
          "AbCdEfGhIj" 0).
Proof. vm_compute. reflexivity. Qed.

(** ** FormParser *)

Lemma status_of_error_calls msg code : status_of (error_calls msg code) = code.
Proof. reflexivity. Qed.

Lemma Logger15_over_error el lg (h : Handler) r st e :
  h r (set_out (fun _ => []) st)
  = ErrorString http.StatusBadRequest e (set_out (fun _ => []) st) ->
  exists pre,
    logs (Logger15 el lg h r st).2
    = logs st ++ [mkLog lg LvlWarn (URL_Path r) (pre ++ ["err"; e])].
Proof.
  intros Hh. rewrite ErrorString_client in Hh by (cbv; reflexivity).
  destruct (Logger15_returns el lg h r st _ Hh) as (lvl & extra & Hrun & Hlvl & Hex).
  { cbn [out set_out app]. rewrite status_of_error_calls.
    unfold http.StatusBadRequest. lia. }
  cbn [out set_out app Env logs] in *. rewrite status_of_error_calls in *.
  rewrite Hrun. cbn [snd logs].
  destruct Hlvl as (_ & Hw & _).
  rewrite Hw by (unfold http.StatusBadRequest; lia).
  rewrite Hex by (unfold http.StatusBadRequest; lia).
  unfold ctx_of. rewrite lookup_insert_eq, app_nil_r. eexists. reflexivity.
Qed.

(** C7: when the form does not parse, [FormParser] answers 400 with the
    message of the error, puts the message in [c.Env["err"]] and returns
    without the next handler (whatever that handler is, the result is the
    same), and [Logger15] around it logs the message under [err]; when the
    form parses, [FormParser] is the next handler run on the request with
    its form filled in, and writes nothing itself. *)
Theorem FormParser_bad_request (h : Handler) (r : Request) (st : St) :
  (forall e, ParseForm_err r = Some e ->
     FormParser h r st
     = (Ret tt,
        mkSt (<["err" := VString e]> (Env st))
             (out st ++
              [SetHeader "Content-Type" "text/plain; charset=utf-8";
               SetHeader "X-Content-Type-Options" "nosniff";
               WriteHeader http.StatusBadRequest;
               Write (e +:+ String strings.newline EmptyString)])
             (logs st) (reqPrefix st) (reqID st))
     /\ (forall h', FormParser h' r st = FormParser h r st)
     /\ (forall el lg, exists pre,
           logs (Logger15 el lg (FormParser h) r st).2
           = logs st ++ [mkLog lg LvlWarn (URL_Path r) (pre ++ ["err"; e])]))
  /\ (ParseForm_err r = None -> FormParser h r st = h (ParseForm r).1 st).
Proof.
  split.
  - intros e He.
    assert (Hrun : forall h' st', FormParser h' r st'
                     = ErrorString http.StatusBadRequest e st').
    { intros h' st'. unfold FormParser, ParseForm. now rewrite He. }
    split; [|split].
    + rewrite Hrun, ErrorString_client by (cbv; reflexivity). reflexivity.
    + intros h'. now rewrite !Hrun.
    + intros el lg. apply Logger15_over_error, Hrun.
  - intros He. unfold FormParser, ParseForm. now rewrite He.
Qed.

Lemma FormParser_bad_request_witness :
  ParseForm_err (request "POST" "/" ∅ (Some "invalid URL escape") DecodeEOF)
  = Some "invalid URL escape"
  /\ In (WriteHeader 400)
        (out (FormParser h_ok
                (request "POST" "/" ∅ (Some "invalid URL escape") DecodeEOF) st0).2)
  /\ ParseForm_err (request "POST" "/" ∅ None DecodeEOF) = None
  /\ FormParser h_ok (request "POST" "/" ∅ None DecodeEOF) st0
     = h_ok (ParseForm (request "POST" "/" ∅ None DecodeEOF)).1 st0.
Proof.
  split; [reflexivity|]. split.
  - destruct (FormParser_bad_request h_ok
                (request "POST" "/" ∅ (Some "invalid URL escape") DecodeEOF) st0)
      as [Hbad _].
    destruct (Hbad "invalid URL escape" eq_refl) as (Hrun & _).
    rewrite Hrun. cbn. tauto.
  - split; [reflexivity|].
    destruct (FormParser_bad_request h_ok (request "POST" "/" ∅ None DecodeEOF) st0)
      as [_ Hok].
    exact (Hok eq_refl).
Defined.

(** ** RequestID *)

Lemma RequestID_run (h : Handler) r st :
  RequestID h r st
  = h r (if fallback r
         then
           let n := wrap64 (reqID st + 1) in
           set_Env <[middleware.RequestIDKey
                     := VString (reqPrefix st +:+ "-" +:+ strconv.FormatInt n)]>
             (set_reqID (fun _ => n) st)
         else
           set_Env <[middleware.RequestIDKey
                     := VString (Header_Get (Header r) RequestIDHeader)]> st).
Proof.
  unfold RequestID, fallback.
  destruct (String.eqb (Header_Get (Header r) RequestIDHeader) EmptyString).
  - unfold bind, get_reqPrefix, atomic_AddInt64_reqID, ret, Env_put.
    now rewrite Sprintf_reqid.
  - reflexivity.
Qed.

Lemma Rev1_RequestID_run (h : Handler) r st :
  Rev1.RequestID h r st
  = h r (if fallback r
         then
           let n := wrap64 (reqID st + 1) in
           set_Env <[middleware.RequestIDKey := VString (strconv.FormatInt n)]>
             (set_reqID (fun _ => n) st)
         else
           set_Env <[middleware.RequestIDKey
                     := VString (Header_Get (Header r) RequestIDHeader)]> st).
Proof.
  unfold Rev1.RequestID, fallback.
  now destruct (String.eqb (Header_Get (Header r) RequestIDHeader) EmptyString).
Qed.

(** C3: [RequestID] is the next handler run in the state where
    [c.Env[middleware.RequestIDKey]] holds the request identifier: the
    value of the header [X-Request-Id] when it is not empty; otherwise an
    identifier made from the counter, which the atomic add has advanced by
    one (the random prefix, a hyphen and the counter in the current
    revision, the counter alone in the revision of [src/middleware.go]). *)
Theorem RequestID_sets_request_id (h : Handler) (r : Request) (st : St) :
  RequestIDHeader = "X-Request-Id"
  /\ (Header_Get (Header r) RequestIDHeader <> EmptyString ->
      RequestID h r st
      = h r (set_Env <[middleware.RequestIDKey
                       := VString (Header_Get (Header r) RequestIDHeader)]> st)
      /\ Rev1.RequestID h r st
         = h r (set_Env <[middleware.RequestIDKey
                          := VString (Header_Get (Header r) RequestIDHeader)]> st))
  /\ (Header_Get (Header r) RequestIDHeader = EmptyString ->
      RequestID h r st
      = h r (set_Env <[middleware.RequestIDKey
                       := VString (reqPrefix st +:+ "-"
                                   +:+ strconv.FormatInt (wrap64 (reqID st + 1)))]>
               (set_reqID (fun _ => wrap64 (reqID st + 1)) st))
      /\ Rev1.RequestID h r st
         = h r (set_Env <[middleware.RequestIDKey
                          := VString (strconv.FormatInt (wrap64 (reqID st + 1)))]>
                  (set_reqID (fun _ => wrap64 (reqID st + 1)) st))).
Proof.
  split; [reflexivity|].
  rewrite RequestID_run, Rev1_RequestID_run. unfold fallback. split; intros Hid.
  - apply String.eqb_neq in Hid. now rewrite Hid.
  - apply String.eqb_eq in Hid. now rewrite Hid.
Qed.

Lemma RequestID_sets_request_id_witness :
  Header_Get {["X-Request-Id" := ["abc-7"]]} RequestIDHeader <> EmptyString
  /\ Env (RequestID h_ok (request "GET" "/" {["X-Request-Id" := ["abc-7"]]}
                            None DecodeEOF) st0).2 !! middleware.RequestIDKey
     = Some (VString "abc-7")
  /\ Header_Get ∅ RequestIDHeader = EmptyString
  /\ Env (RequestID h_ok (request "GET" "/" ∅ None DecodeEOF) st0).2
       !! middleware.RequestIDKey
     = Some (VString "AbCdEfGhIj-1").
Proof.
  assert (H1 : Header_Get {["X-Request-Id" := ["abc-7"]]} RequestIDHeader
               <> EmptyString) by (vm_compute; discriminate).
  assert (H2 : Header_Get ∅ RequestIDHeader = EmptyString) by reflexivity.
  split; [exact H1|]. split; [|split; [exact H2|]].
  - destruct (RequestID_sets_request_id h_ok
                (request "GET" "/" {["X-Request-Id" := ["abc-7"]]} None DecodeEOF)
                st0) as (_ & Hhdr & _).
    destruct (Hhdr H1) as [Hrun _]. rewrite Hrun. vm_compute. reflexivity.
  - destruct (RequestID_sets_request_id h_ok
                (request "GET" "/" ∅ None DecodeEOF) st0) as (_ & _ & Hfb).
    destruct (Hfb H2) as [Hrun _]. rewrite Hrun. vm_compute. reflexivity.
Defined.

(** ** EnvAdd *)

Lemma range_put_union (m env : Env_map) :
  map_fold (fun k v e => <[k := v]> e) env m = m ∪ env.
Proof.
  apply (map_fold_weak_ind (fun b m => b = m ∪ env)).
  - now rewrite (left_id_L ∅ (∪)).
  - intros i x m' b _ ->. now rewrite insert_union_l.
Qed.

(** Go ranges over a map in an order of its own choosing; the merge comes
    out the same in every order. *)
Lemma range_any_order (l : list (string * value)) (env : Env_map) :
  NoDup l.*1 ->
  fold_left (fun e kv => <[kv.1 := kv.2]> e) l env = list_to_map l ∪ env.
Proof.
  revert env. induction l as [|[k v] l IH]; intros env Hnd; simpl.
  - now rewrite (left_id_L ∅ (∪)).
  - apply NoDup_cons in Hnd as [Hk Hnd]. rewrite IH by assumption.
    rewrite <- insert_union_l. symmetry. apply insert_union_r.
    now apply not_elem_of_list_to_map_1.
Qed.

(** C9: the middleware of [EnvAdd(m)] is the next handler run with a
    [c.Env] that maps each key of [m] to its value in [m] and keeps every
    other entry as it was; nothing else changes, and the order in which
    the keys of [m] are visited does not matter. *)
Theorem EnvAdd_merges (m : Env_map) (h : Handler) (r : Request) (st : St) :
  exists env',
    EnvAdd m h r st = h r (mkSt env' (out st) (logs st) (reqPrefix st) (reqID st))
    /\ (forall k v, m !! k = Some v -> env' !! k = Some v)
    /\ (forall k, m !! k = None -> env' !! k = Env st !! k)
    /\ (forall order, order ≡ₚ map_to_list m ->
          fold_left (fun e kv => <[kv.1 := kv.2]> e) order (Env st) = env').
Proof.
  exists (m ∪ Env st). split; [|split; [|split]].
  - unfold EnvAdd, bind, range_put, set_Env. now rewrite range_put_union.
  - intros k v Hk. now apply lookup_union_Some_l.
  - intros k Hk. now apply lookup_union_r.
  - intros order Hperm. rewrite range_any_order.
    + f_equal. rewrite <- (list_to_map_to_list m).
      now apply list_to_map_proper;
        [rewrite Hperm; apply NoDup_fst_map_to_list|].
    + rewrite Hperm. apply NoDup_fst_map_to_list.
Qed.

(** ** GetJSONBody *)

(** No body, no (or a zero) content-length, and a content-type that is
    absent or application/json: the next handler runs with the nil map
    under [json]. *)
Lemma GetJSONBody_no_body (h : Handler) r st :
  Body_decode r = DecodeEOF -> content_length_zero r -> content_type_json r ->
  GetJSONBody h r st = h r (set_Env <["json" := VJSON None]> st).
Proof.
  unfold content_length_zero, content_type_json, GetJSONBody.
  intros Hbody Hcl Hct. rewrite Hbody.
  set (clh := Header_Get (Header r) "content-length") in *.
  set (ct := Header_Get (Header r) "content-type") in *.
  assert (Hlen : (if String.eqb clh EmptyString then inl 0 else strconv.Atoi clh)
                 = inl 0).
  { destruct (String.eqb_spec clh EmptyString) as [|Hne]; [reflexivity|].
    now destruct Hcl. }
  rewrite Hlen.
  assert (Htype : negb (String.eqb ct EmptyString)
                  && negb (String.eqb ct "application/json") = false).
  { destruct Hct as [-> | ->]; [reflexivity|].
    now rewrite String.eqb_refl, andb_false_r. }
  rewrite Htype. reflexivity.
Qed.

(** A body that does not decode, or no body under a content-length that
    is not zero: 400, whatever the next handler is. *)
Lemma GetJSONBody_rejects r :
  (exists msg, Body_decode r = DecodeError msg)
  \/ (Body_decode r = DecodeEOF /\ ~ content_length_zero r) ->
  exists msg, forall (h : Handler) st, GetJSONBody h r st = ErrorString 400 msg st.
Proof.
  unfold content_length_zero, GetJSONBody. intros Hbad.
  set (clh := Header_Get (Header r) "content-length") in *.
  set (ct := Header_Get (Header r) "content-type") in *.
  destruct (String.eqb_spec clh EmptyString) as [Hclh|Hclh].
  - (* no content-length: only a decoding error is left *)
    destruct (negb (String.eqb ct EmptyString)
              && negb (String.eqb ct "application/json")); [now eexists|].
    destruct Hbad as [[msg ->] | [_ Hcl]]; [now eexists | tauto].
  - destruct (strconv.Atoi clh) as [cl|err] eqn:Hatoi; [|now eexists].
    destruct (negb (String.eqb ct EmptyString)
              && negb (String.eqb ct "application/json")); [now eexists|].
    destruct Hbad as [[msg ->] | [-> Hcl]]; [now eexists|].
    destruct (Z.eqb_spec cl 0) as [->|Hne]; [tauto | now eexists].
Qed.

(** C6, as the code has it: a request without a body (the decoder reports
    EOF) whose content-length is absent or zero and whose content-type is
    absent or application/json is handed to the next handler with the nil
    map in [c.Env["json"]], and [GetJSONBody] writes nothing; a request
    whose body does not decode, or that has no body under a content-length
    that is not zero, is answered 400 with the reason in [c.Env["err"]],
    and the next handler plays no part in the result. *)
Theorem GetJSONBody_absent_body (h : Handler) (r : Request) (st : St) :
  (Body_decode r = DecodeEOF -> content_length_zero r -> content_type_json r ->
   GetJSONBody h r st = h r (set_Env <["json" := VJSON None]> st))
  /\ ((exists msg, Body_decode r = DecodeError msg)
      \/ (Body_decode r = DecodeEOF /\ ~ content_length_zero r) ->
      exists msg,
        GetJSONBody h r st
        = (Ret tt,
           mkSt (<["err" := VString msg]> (Env st))
                (out st ++
                 [SetHeader "Content-Type" "text/plain; charset=utf-8";
                  SetHeader "X-Content-Type-Options" "nosniff";
                  WriteHeader 400;
                  Write (msg +:+ String strings.newline EmptyString)])
                (logs st) (reqPrefix st) (reqID st))
        /\ forall h', GetJSONBody h' r st = GetJSONBody h r st).
Proof.
  split; [apply GetJSONBody_no_body|].
  intros Hbad. destruct (GetJSONBody_rejects r Hbad) as [msg Hrun].
  exists msg. split.
  - rewrite Hrun, ErrorString_client by lia. reflexivity.
  - intros h'. now rewrite !Hrun.
Qed.

Lemma GetJSONBody_absent_body_witness :
  (Env (GetJSONBody h_ok (request "POST" "/" {["Content-Length" := ["0"]]}
                            None DecodeEOF) st0).2 !! "json" = Some (VJSON None)
   /\ out (GetJSONBody h_ok (request "POST" "/" {["Content-Length" := ["0"]]}
                              None DecodeEOF) st0).2 = [Write "13 characters"])
  /\ In (WriteHeader 400)
        (out (GetJSONBody h_ok (request "POST" "/" {["Content-Length" := ["7"]]}
                                  None DecodeEOF) st0).2).
Proof.
  split.
  - destruct (GetJSONBody_absent_body h_ok
                (request "POST" "/" {["Content-Length" := ["0"]]} None DecodeEOF)
                st0) as [Hok _].
    rewrite Hok.
    + split; vm_compute; reflexivity.
    + reflexivity.
    + right. vm_compute. reflexivity.
    + left. reflexivity.
  - destruct (GetJSONBody_absent_body h_ok
                (request "POST" "/" {["Content-Length" := ["7"]]} None DecodeEOF)
                st0) as [_ Hbad].
    destruct Hbad as (msg & Hrun & _).
    + right. split; [reflexivity|].
      intros [H|H]; vm_compute in H; discriminate H.
    + rewrite Hrun. cbn. tauto.
Defined.

(** C6 as it is stated fails on a request without a body and without a
    content-length whose content-type is text/plain: it is answered 400,
    nothing is stored under [json], and the next handler does not run. *)
Lemma GetJSONBody_absent_body_counterexample :
  Body_decode (request "POST" "/" {["Content-Type" := ["text/plain"]]}
                 None DecodeEOF) = DecodeEOF
  /\ Header_Get {["Content-Type" := ["text/plain"]]} "content-length" = EmptyString
  /\ GetJSONBody h_ok (request "POST" "/" {["Content-Type" := ["text/plain"]]}
                         None DecodeEOF) st0
     = ErrorString 400 "Invalid content-type 'text/plain', application/json expected"
         st0
  /\ In (WriteHeader 400)
        (out (GetJSONBody h_ok (request "POST" "/" {["Content-Type" := ["text/plain"]]}
                                  None DecodeEOF) st0).2)
  /\ Env (GetJSONBody h_ok (request "POST" "/" {["Content-Type" := ["text/plain"]]}
                              None DecodeEOF) st0).2 !! "json" = None
  /\ ~ In (Write "13 characters")
        (out (GetJSONBody h_ok (request "POST" "/" {["Content-Type" := ["text/plain"]]}
                                  None DecodeEOF) st0).2).
Proof.
  repeat split; try (vm_compute; reflexivity).
  - vm_compute. tauto.
  - vm_compute. intros H. repeat (destruct H as [H|H]; [discriminate H|]). exact H.
Qed.

(** ** The request ID counter and prefix *)

Lemma wrap64_in_range z : int64_min <= z <= int64_max -> wrap64 z = z.
Proof.
  unfold int64_min, int64_max, wrap64. intros Hz.
  rewrite Z.mod_small by lia. lia.
Qed.

Lemma handed_over_eq r st :
  handed_over r st
  = if fallback r
    then
      let n := wrap64 (reqID st + 1) in
      mkSt (<[middleware.RequestIDKey
              := VString (reqPrefix st +:+ "-" +:+ strconv.FormatInt n)]> ∅)
           [] (logs st) (reqPrefix st) n
    else
      mkSt (<[middleware.RequestIDKey
              := VString (Header_Get (Header r) RequestIDHeader)]> ∅)
           [] (logs st) (reqPrefix st) (reqID st).
Proof.
  unfold handed_over. rewrite RequestID_run. now destruct (fallback r).
Qed.

Lemma serve_eq (h : Handler) r st : serve h r st = (h r (handed_over r st)).2.
Proof.
  unfold serve, handed_over. rewrite !RequestID_run. reflexivity.
Qed.

(** One request: the counter advances by the atomic add when the request
    has no identifier of its own, and stays otherwise. *)
Lemma serve_reqID (h : Handler) r st :
  preserves_pkg h ->
  reqID (serve h r st) = (if fallback r then wrap64 (reqID st + 1) else reqID st)
  /\ reqID (serve h r st) = reqID (handed_over r st)
  /\ reqPrefix (serve h r st) = reqPrefix st.
Proof.
  intros Hh. rewrite serve_eq. destruct (Hh r (handed_over r st)) as [-> ->].
  rewrite handed_over_eq. now destruct (fallback r).
Qed.

Lemma final_reqPrefix (h : Handler) rs st :
  preserves_pkg h -> reqPrefix (final h rs st) = reqPrefix st.
Proof.
  intros Hh. revert st. induction rs as [|r rs IH]; intros st; [reflexivity|].
  unfold final in *. simpl. rewrite IH.
  now destruct (serve_reqID h r st Hh) as (_ & _ & ->).
Qed.

(** Along a run the prefix stays, and an identifier made up for a request
    is the prefix, a hyphen and the counter as the request left it. *)
Lemma run_prefix (h : Handler) rs st i r s :
  preserves_pkg h ->
  run h rs st !! i = Some (r, s) ->
  reqPrefix s = reqPrefix st
  /\ (fallback r = true ->
      Env s !! middleware.RequestIDKey
      = Some (VString (reqPrefix st +:+ "-" +:+ strconv.FormatInt (reqID s)))).
Proof.
  intros Hh. revert st i. induction rs as [|r0 rs IH]; intros st i Hi;
    [discriminate|].
  destruct i as [|i]; simpl in Hi.
  - injection Hi as <- <-. rewrite handed_over_eq.
    destruct (fallback r0); simpl; (split; [reflexivity|]); intros Hf;
      [apply lookup_insert_eq | discriminate].
  - destruct (IH _ _ Hi) as [Hp Hid].
    destruct (serve_reqID h r0 st Hh) as (_ & _ & Hpre).
    rewrite Hpre in Hp, Hid. now split.
Qed.

(** Along a run that stays below the largest [int64], the counter does
    not go down, goes up at each made-up identifier, and by one at most
    per request. *)
Lemma run_counter (h : Handler) rs st i r s :
  preserves_pkg h ->
  int64_min <= reqID st ->
  reqID st + Z.of_nat (length rs) <= int64_max ->
  run h rs st !! i = Some (r, s) ->
  reqID st <= reqID s
  /\ (fallback r = true -> reqID st < reqID s).
Proof.
  intros Hh. revert st i. induction rs as [|r0 rs IH]; intros st i Hlo Hhi Hi;
    [discriminate|].
  cbn [length] in Hhi.
  destruct i as [|i]; simpl in Hi.
  - injection Hi as <- <-. rewrite handed_over_eq.
    destruct (fallback r0); simpl.
    + rewrite wrap64_in_range by lia. split; intros; lia.
    + split; [lia | discriminate].
  - destruct (serve_reqID h r0 st Hh) as (Hn & _ & _).
    assert (Hstep : reqID st <= reqID (serve h r0 st) <= reqID st + 1).
    { rewrite Hn. destruct (fallback r0); [|lia].
      rewrite wrap64_in_range by lia. lia. }
    destruct (IH (serve h r0 st) i) as [Hle Hlt]; [lia | lia | exact Hi |].
    split; [lia|]. intros Hf. specialize (Hlt Hf). lia.
Qed.

Lemma run_counter_pair (h : Handler) rs st i j ri si rj sj :
  preserves_pkg h ->
  int64_min <= reqID st ->
  reqID st + Z.of_nat (length rs) <= int64_max ->
  (i < j)%nat ->
  run h rs st !! i = Some (ri, si) ->
  run h rs st !! j = Some (rj, sj) ->
  reqID si <= reqID sj
  /\ (fallback rj = true -> reqID si < reqID sj).
Proof.
  intros Hh. revert st i j.
  induction rs as [|r0 rs IH]; intros st i j Hlo Hhi Hij Hi Hj; [discriminate|].
  cbn [length] in Hhi.
  destruct (serve_reqID h r0 st Hh) as (Hn & Hsame & _).
  assert (Hstep : reqID st <= reqID (serve h r0 st) <= reqID st + 1).
  { rewrite Hn. destruct (fallback r0); [|lia].
    rewrite wrap64_in_range by lia. lia. }
  destruct j as [|j]; [lia|]. simpl in Hj.
  destruct i as [|i]; simpl in Hi.
  - injection Hi as <- <-. rewrite <- Hsame.
    apply (run_counter h rs (serve h r0 st) j rj sj Hh); [lia | lia | exact Hj].
  - apply (IH (serve h r0 st) i j); [lia | lia | lia | exact Hi | exact Hj].
Qed.

Lemma fallback_ids_differ (p : string) (a b : Z) :
  a <> b ->
  p +:+ "-" +:+ strconv.FormatInt a <> p +:+ "-" +:+ strconv.FormatInt b.
Proof.
  intros Hab Heq. apply Hab.
  apply (inj (String.append p)) in Heq.
  apply (inj (String.append "-")) in Heq.
  now apply (inj pretty) in Heq.
Qed.

Lemma h_ok_preserves_pkg : preserves_pkg h_ok.
Proof. intros r st. split; reflexivity. Qed.

(** C4, as the code has it: [RequestID] changes the counter by its atomic
    add of 1 and in no other way, and only for a request without an
    identifier of its own; a request that brings one leaves the counter as
    it is.  So along the requests of a process, as long as the counter
    stays within [int64], the counter never goes down, it is strictly
    larger at each made-up identifier than at every request before, and
    two made-up identifiers come from different counter values and are
    different strings. *)
Theorem reqID_counter_increases (h : Handler) (rs : list Request) (st : St) :
  preserves_pkg h ->
  int64_min <= reqID st ->
  reqID st + Z.of_nat (length rs) <= int64_max ->
  (forall r s,
     reqID (serve h r s) = if fallback r then wrap64 (reqID s + 1) else reqID s)
  /\ (forall i j ri si rj sj,
        (i < j)%nat ->
        run h rs st !! i = Some (ri, si) ->
        run h rs st !! j = Some (rj, sj) ->
        reqID si <= reqID sj
        /\ (fallback rj = true -> reqID si < reqID sj)
        /\ (fallback ri = true -> fallback rj = true ->
            Env si !! middleware.RequestIDKey <> Env sj !! middleware.RequestIDKey)).
Proof.
  intros Hh Hlo Hhi. split.
  - intros r s. now destruct (serve_reqID h r s Hh) as (-> & _).
  - intros i j ri si rj sj Hij Hi Hj.
    destruct (run_counter_pair h rs st i j ri si rj sj Hh Hlo Hhi Hij Hi Hj)
      as [Hle Hlt].
    split; [exact Hle|]. split; [exact Hlt|].
    intros Hfi Hfj.
    destruct (run_prefix h rs st i ri si Hh Hi) as [_ Hidi].
    destruct (run_prefix h rs st j rj sj Hh Hj) as [_ Hidj].
    rewrite (Hidi Hfi), (Hidj Hfj). intros Heq.
    injection Heq as Heq. revert Heq. apply fallback_ids_differ.
    specialize (Hlt Hfj). lia.
Qed.

Lemma reqID_counter_increases_witness :
  map (fun rs => reqID rs.2) (run h_ok sample_requests st0) = [1; 1; 2]
  /\ reqID (handed_over (request "GET" "/a" ∅ None DecodeEOF) st0)
     < reqID (handed_over (request "GET" "/c" ∅ None DecodeEOF)
                (serve h_ok (request "GET" "/b" {["X-Request-Id" := ["abc-7"]]}
                               None DecodeEOF)
                   (serve h_ok (request "GET" "/a" ∅ None DecodeEOF) st0))).
Proof.
  split; [vm_compute; reflexivity|].
  assert (Hlo : int64_min <= reqID st0) by (vm_compute; discriminate).
  assert (Hhi : reqID st0 + Z.of_nat (length sample_requests) <= int64_max)
    by (vm_compute; discriminate).
  destruct (reqID_counter_increases h_ok sample_requests st0
              h_ok_preserves_pkg Hlo Hhi) as [_ Hpair].
  assert (H02 : (0 < 2)%nat) by lia.
  destruct (Hpair 0%nat 2%nat _ _ _ _ H02 eq_refl eq_refl) as (_ & Hlt & _).
  exact (Hlt eq_refl).
Defined.

(** C4 as it is stated fails on a request that brings its identifier, which
    leaves the counter where it was, and at the largest [int64], where the
    add wraps around to the smallest. *)
Lemma reqID_counter_increases_counterexample :
  reqID (RequestID h_ok (request "GET" "/b" {["X-Request-Id" := ["abc-7"]]}
                           None DecodeEOF) st0).2 = reqID st0
  /\ reqID (RequestID h_ok (request "GET" "/a" ∅ None DecodeEOF)
              (mkSt ∅ [] [] "AbCdEfGhIj" int64_max)).2 = int64_min
  /\ int64_min < int64_max.
Proof. repeat split; vm_compute; reflexivity. Qed.

(** ** The prefix *)

Lemma substring_0_length n s :
  (n <= String.length s)%nat -> String.length (String.substring 0 n s) = n.
Proof.
  revert s. induction n as [|n IH]; intros [|a s] Hn; simpl in *;
    try reflexivity; try lia.
  rewrite IH; [reflexivity | lia].
Qed.

Lemma init_prefix_length reads p :
  init_prefix reads = Some p -> String.length p = 10%nat.
Proof.
  induction reads as [|buf reads IH]; [discriminate|]. cbn [init_prefix].
  destruct (Nat.ltb_spec (String.length (drop_plus_slash (base64.EncodeToString buf))) 10)
    as [Hlt|Hge]; [exact IH|].
  intros [= <-]. now apply substring_0_length.
Qed.

Lemma init_eq reads st :
  init reads = Some st ->
  init_prefix reads = Some (reqPrefix st) /\ reqID st = 0 /\ logs st = [].
Proof.
  unfold init. destruct (init_prefix reads) as [p|]; [|discriminate].
  intros [= <-]. repeat split.
Qed.

(** C5: [init] sets the prefix, ten characters of the encoding of random
    bytes, once; after that nothing assigns it: along the requests of the
    process [reqPrefix] is what [init] made it, and every identifier that
    [RequestID] makes up for a request without one is that prefix, a
    hyphen, and the counter value that the request's atomic add returned. *)
Theorem reqPrefix_fixed
    (reads : list (list Byte.byte)) (st_init : St) (h : Handler) (rs : list Request) :
  init reads = Some st_init ->
  preserves_pkg h ->
  String.length (reqPrefix st_init) = 10%nat
  /\ reqPrefix (final h rs st_init) = reqPrefix st_init
  /\ (forall i r s,
        run h rs st_init !! i = Some (r, s) ->
        reqPrefix s = reqPrefix st_init
        /\ (fallback r = true ->
            Env s !! middleware.RequestIDKey
            = Some (VString (reqPrefix st_init +:+ "-"
                             +:+ strconv.FormatInt (reqID s)))))
  /\ (forall r st,
        fallback r = true ->
        RequestID h r st
        = h r (set_Env <[middleware.RequestIDKey
                         := VString (reqPrefix st +:+ "-"
                                     +:+ strconv.FormatInt (wrap64 (reqID st + 1)))]>
                 (set_reqID (fun _ => wrap64 (reqID st + 1)) st))).
Proof.
  intros Hinit Hh. destruct (init_eq reads st_init Hinit) as (Hp & _ & _).
  split; [exact (init_prefix_length reads _ Hp)|].
  split; [now apply final_reqPrefix|]. split.
  - intros i r s Hi. exact (run_prefix h rs st_init i r s Hh Hi).
  - intros r st Hf. rewrite RequestID_run, Hf. reflexivity.
Qed.

Lemma reqPrefix_fixed_witness :
  init sample_reads = Some (mkSt ∅ [] [] "AAHhAgMEBQ" 0)
  /\ reqPrefix (final h_ok sample_requests (mkSt ∅ [] [] "AAHhAgMEBQ" 0))
     = "AAHhAgMEBQ"
  /\ map (fun rs => Env rs.2 !! middleware.RequestIDKey)
         (run h_ok sample_requests (mkSt ∅ [] [] "AAHhAgMEBQ" 0))
     = [Some (VString "AAHhAgMEBQ-1"); Some (VString "abc-7");
        Some (VString "AAHhAgMEBQ-2")].
Proof.
  assert (Hinit : init sample_reads = Some (mkSt ∅ [] [] "AAHhAgMEBQ" 0))
    by (vm_compute; reflexivity).
  split; [exact Hinit|].
  destruct (reqPrefix_fixed sample_reads _ h_ok sample_requests Hinit
              h_ok_preserves_pkg) as (_ & Hfinal & _).
  split; [exact Hfinal | vm_compute; reflexivity].
Defined.

(** ** Nothing else touches the package variables *)

Ltac by_next_handler Hh :=
  match goal with
  | |- context [?h ?r ?x] =>
      match type of Hh with preserves_pkg h => exact (Hh r x) end
  end.

Lemma stack_levels_state n i s ctx st : (stack_levels n i s ctx st).2 = st.
Proof.
  revert i ctx. induction n as [|n IH]; intros i ctx; cbn [stack_levels];
    [reflexivity|].
  destruct ((i <? levels)%nat && (2 * i + 1 <? length s)%nat); [|reflexivity].
  destruct (s !! (2 * i)%nat); [|reflexivity].
  destruct (s !! (2 * i + 1)%nat); [|reflexivity].
  destruct (strings.Index _ _); [apply IH | reflexivity].
Qed.

Lemma stack_fields_state s ctx st : (stack_fields s ctx st).2 = st.
Proof. destruct s; [reflexivity | apply stack_levels_state]. Qed.

Lemma ErrorString_pkg code str st :
  reqID (ErrorString code str st).2 = reqID st
  /\ reqPrefix (ErrorString code str st).2 = reqPrefix st.
Proof.
  destruct (Z_lt_le_dec code 500).
  - now rewrite ErrorString_client.
  - now rewrite ErrorString_internal.
Qed.

Lemma EnvAdd_preserves_pkg m h : preserves_pkg h -> preserves_pkg (EnvAdd m h).
Proof. intros Hh r st. unfold EnvAdd, bind, range_put. by_next_handler Hh. Qed.

Lemma FormParser_preserves_pkg h : preserves_pkg h -> preserves_pkg (FormParser h).
Proof.
  intros Hh r st. unfold FormParser, ParseForm.
  destruct (ParseForm_err r); [apply ErrorString_pkg | by_next_handler Hh].
Qed.

Lemma ContextLogger_preserves_pkg h :
  preserves_pkg h -> preserves_pkg (ContextLogger h).
Proof.
  intros Hh r st. unfold ContextLogger, bind, Env_get.
  destruct (Env st !! middleware.RequestIDKey) as [[]|];
    unfold Env_put, ret; by_next_handler Hh.
Qed.

Lemma GetJSONBody_preserves_pkg h :
  preserves_pkg h -> preserves_pkg (GetJSONBody h).
Proof.
  intros Hh r st. unfold GetJSONBody.
  destruct (if String.eqb _ _ then _ else _); [|apply ErrorString_pkg].
  destruct (negb _ && negb _); [apply ErrorString_pkg|].
  destruct (Body_decode r) as [|js|msg]; [destruct (negb _)|..];
    try apply ErrorString_pkg; unfold bind, Env_put; by_next_handler Hh.
Qed.

Lemma Recoverer_panic_run stack (h : Handler) r st v st1 :
  h r st = (Panic v, st1) ->
  Recoverer stack h r st
  = if (3 <=? length (strings.Split stack strings.newline))%nat
    then (Ret tt, recovered (VStrings (drop 3 (strings.Split stack strings.newline)))
                    v st1)
    else (Panic "runtime error: slice bounds out of range", st1).
Proof.
  intros Hh. unfold Recoverer, defer_recover. rewrite Hh.
  unfold bind at 1, slice_from.
  destruct (3 <=? length _)%nat; [|reflexivity].
  unfold ret. unfold bind at 1. unfold Env_put at 1. apply Errorf_panic_run.
Qed.

Lemma Recoverer_preserves_pkg stack h :
  preserves_pkg h -> preserves_pkg (Recoverer stack h).
Proof.
  intros Hh r st. specialize (Hh r st).
  destruct (h r st) as [[[]|v] st1] eqn:Hrun.
  - now destruct (Recoverer_transparent stack h r st st1 Hrun) as [-> _].
  - rewrite (Recoverer_panic_run stack h r st v st1 Hrun).
    now destruct (3 <=? length _)%nat.
Qed.

Ltac one_record :=
  eexists _, (cons _ nil); split; [reflexivity | simpl; lia].
Ltac no_record :=
  eexists _, nil; rewrite app_nil_r; split; [reflexivity | simpl; lia].

(** Whatever the handler does, [Logger15] adds to its state the calls
    that the wrapper passes on and at most one record. *)
Lemma Logger15_state el lg (h : Handler) r st o st1 :
  h r (set_out (fun _ => []) st) = (o, st1) ->
  exists o' l,
    Logger15 el lg h r st
    = (o', mkSt (Env st1) (out st ++ forwarded_of (out st1)) (logs st1 ++ l)
                (reqPrefix st1) (reqID st1))
    /\ (length l <= 1)%nat.
Proof.
  intros Hh. destruct o as [[]|v].
  - unfold Logger15.
    unfold bind at 1. rewrite GetReqID_run.
    unfold bind at 1. unfold mutil.with_wrapper. rewrite Hh.
    fold (forwarded_of (out st1)).
    unfold bind at 1. unfold Env_get at 1.
    destruct (500 <=? _); [|destruct (400 <=? _); one_record].
    unfold bind at 1. unfold Env_get at 1.
    destruct (Env _ !! "stack") as [[s'|ss|js|l|o]|]; try one_record.
    unfold bind at 1.
    match goal with |- context [stack_fields ?s ?c ?x] =>
      pose proof (stack_fields_state s c x) as Hst;
      destruct (stack_fields s c x) as [[c'|v'] st3] end;
      cbn [snd] in Hst; subst st3.
    + one_record.
    + no_record.
  - rewrite (Logger15_panics el lg h r st st1 v Hh). no_record.
Qed.

Lemma Logger15_preserves_pkg el lg h :
  preserves_pkg h -> preserves_pkg (Logger15 el lg h).
Proof.
  intros Hh r st. specialize (Hh r (set_out (fun _ => []) st)).
  destruct (h r (set_out (fun _ => []) st)) as [o st1] eqn:Hrun.
  destruct (Logger15_state el lg h r st o st1 Hrun) as (o' & l & -> & _).
  exact Hh.
Qed.

(** [RequestID] itself leaves the prefix alone and moves the counter by
    its add only. *)
Lemma RequestID_pkg h r st :
  preserves_pkg h ->
  reqPrefix (RequestID h r st).2 = reqPrefix st
  /\ reqID (RequestID h r st).2
     = if fallback r then wrap64 (reqID st + 1) else reqID st.
Proof.
  intros Hh. rewrite RequestID_run.
  destruct (Hh r (if fallback r
         then
           let n := wrap64 (reqID st + 1) in
           set_Env <[middleware.RequestIDKey
                     := VString (reqPrefix st +:+ "-" +:+ strconv.FormatInt n)]>
             (set_reqID (fun _ => n) st)
         else
           set_Env <[middleware.RequestIDKey
                     := VString (Header_Get (Header r) RequestIDHeader)]> st))
    as [-> ->].
  now destruct (fallback r).
Qed.

(** * Further properties of the package *)

(** ** ErrorString and ErrorInternal *)

Lemma append_length (s t : string) :
  String.length (s +:+ t) = (String.length s + String.length t)%nat.
Proof.
  induction s as [|a s IH]; [reflexivity|].
  rewrite append_cons. simpl. now rewrite IH.
Qed.

Lemma append_inj_r (s1 s2 t : string) : s1 +:+ t = s2 +:+ t -> s1 = s2.
Proof.
  revert s2. induction s1 as [|a s1 IH]; intros [|b s2] Heq.
  - reflexivity.
  - apply (f_equal String.length) in Heq.
    rewrite !append_length in Heq. simpl in Heq. lia.
  - apply (f_equal String.length) in Heq.
    rewrite !append_length in Heq. simpl in Heq. lia.
  - rewrite !append_cons in Heq. injection Heq as -> Heq. f_equal. now apply IH.
Qed.

(** X1: below 500 [ErrorString] answers with the detail string itself:
    the body is the string and a line end, under the status given, so two
    different details give two different responses. *)
Theorem ErrorString_shows_detail (code : Z) (st : St) (str1 str2 : string) :
  code < 500 ->
  out (ErrorString code str1 st).2
  = out st ++
    [SetHeader "Content-Type" "text/plain; charset=utf-8";
     SetHeader "X-Content-Type-Options" "nosniff";
     WriteHeader code;
     Write (str1 +:+ String strings.newline EmptyString)]
  /\ Env (ErrorString code str1 st).2 !! "err" = Some (VString str1)
  /\ (str1 <> str2 ->
      out (ErrorString code str1 st).2 <> out (ErrorString code str2 st).2).
Proof.
  intros Hc. rewrite !ErrorString_client by assumption. cbn [snd out Env].
  split; [reflexivity|]. split; [apply lookup_insert_eq|].
  intros Hne Heq. apply Hne. unfold error_calls in Heq.
  apply app_inv_head in Heq. injection Heq as Heq. now apply append_inj_r in Heq.
Qed.

Lemma ErrorString_shows_detail_witness :
  404 < 500
  /\ out (ErrorString 404 "no such user" st0).2
     <> out (ErrorString 404 "no such group" st0).2.
Proof.
  assert (H : 404 < 500) by lia. split; [exact H|].
  destruct (ErrorString_shows_detail 404 st0 "no such user" "no such group" H)
    as (_ & _ & Hdiff).
  apply Hdiff. discriminate.
Defined.


(** X3: [ErrorInternal] answers 500 with the generic text, never with the
    text of the error: the text goes to [c.Env["err"]] (a fixed sentence
    for a nil error) and the stack lines after the third to
    [c.Env["stack"]].  On a stack text of less than three lines the slice
    expression panics before anything is stored or written. *)
Theorem ErrorInternal_answers_500 (stack : string) (err : option string) (st : St) :
  ((3 <= length (strings.Split stack strings.newline))%nat ->
   ErrorInternal stack err st
   = (Ret tt,
      mkSt (<["err" := VString
                match err with
                | Some e => e
                | None => "nil err passed into gojiutil.ErrorInternal"
                end]>
              (<["stack" := VStrings (drop 3 (strings.Split stack strings.newline))]>
                 (Env st)))
           (out st ++
            [SetHeader "Content-Type" "text/plain; charset=utf-8";
             SetHeader "X-Content-Type-Options" "nosniff";
             WriteHeader 500;
             Write ("Internal Error (request ID: " +:+ reqid_of (Env st) +:+ ")"
                    +:+ String strings.newline EmptyString)])
           (logs st) (reqPrefix st) (reqID st)))
  /\ ((length (strings.Split stack strings.newline) < 3)%nat ->
      ErrorInternal stack err st
      = (Panic "runtime error: slice bounds out of range", st)).
Proof.
  unfold ErrorInternal, slice_from. split; intros Hlen.
  - apply Nat.leb_le in Hlen. unfold bind at 1. rewrite Hlen. unfold ret.
    unfold bind at 1. unfold Env_put at 1.
    destruct err as [e|]; rewrite ErrorString_internal by lia;
      cbn [Env out logs reqPrefix reqID set_Env];
      unfold internal_error_text, error_calls;
      rewrite !reqid_of_insert_ne by discriminate;
      now rewrite !append_assoc.
  - apply Nat.leb_gt in Hlen. unfold bind at 1. now rewrite Hlen.
Qed.

Lemma ErrorInternal_answers_500_witness :
  (3 <= length (strings.Split stack_text strings.newline))%nat
  /\ out (ErrorInternal stack_text (Some "pq: relation users does not exist") st0).2
     = [SetHeader "Content-Type" "text/plain; charset=utf-8";
        SetHeader "X-Content-Type-Options" "nosniff";
        WriteHeader 500;
        Write ("Internal Error (request ID: )" +:+ String strings.newline EmptyString)]
  /\ (length (strings.Split "goroutine 5 [running]:" strings.newline) < 3)%nat
  /\ (ErrorInternal "goroutine 5 [running]:" None st0).1
     = Panic "runtime error: slice bounds out of range".
Proof.
  assert (H1 : (3 <= length (strings.Split stack_text strings.newline))%nat)
    by (vm_compute; lia).
  assert (H2 : (length (strings.Split "goroutine 5 [running]:" strings.newline) < 3)%nat)
    by (vm_compute; lia).
  split; [exact H1|]. split; [|split; [exact H2|]].
  - destruct (ErrorInternal_answers_500 stack_text
                (Some "pq: relation users does not exist") st0) as [Hok _].
    rewrite (Hok H1). reflexivity.
  - destruct (ErrorInternal_answers_500 "goroutine 5 [running]:" None st0)
      as [_ Hbad].
    rewrite (Hbad H2). reflexivity.
Defined.

(** ** Logger15 and the wrapper writer *)

Lemma wrapper_started calls b :
  mutil.wroteHeader b = true ->
  mutil.code (fold_left mutil.call calls b) = mutil.code b.
Proof.
  revert b. induction calls as [|c calls IH]; intros b Hb; [reflexivity|].
  cbn [fold_left]. rewrite IH.
  - destruct c; cbn [mutil.call]; [reflexivity|..];
      unfold mutil.do_Write, mutil.do_WriteHeader; now rewrite Hb.
  - destruct c; cbn [mutil.call]; [exact Hb|..];
      unfold mutil.do_Write, mutil.do_WriteHeader; now rewrite Hb.
Qed.

Lemma wrapper_fresh calls b :
  mutil.wroteHeader b = false -> mutil.code b = 0 ->
  mutil.code (fold_left mutil.call calls b) = first_status calls.
Proof.
  revert b. induction calls as [|c calls IH]; intros b Hb H0; [exact H0|].
  cbn [fold_left first_status]. destruct c as [k v|s|body]; cbn [mutil.call].
  - now apply IH.
  - rewrite wrapper_started; unfold mutil.do_WriteHeader; now rewrite Hb.
  - rewrite wrapper_started;
      unfold mutil.do_Write, mutil.do_WriteHeader; now rewrite Hb.
Qed.

Lemma status_of_first_status calls : status_of calls = first_status calls.
Proof. unfold status_of, mutil.Status. now apply wrapper_fresh. Qed.

Lemma first_status_app a b :
  first_status (a ++ b) = if started a then first_status a else first_status b.
Proof.
  induction a as [|c a IH]; [reflexivity|]. now destruct c.
Qed.

(** X4: a panic of the handler passes through [Logger15] with its value:
    no record is emitted and [c.Env] is left as the handler left it; the
    calls that the handler made up to the panic have gone through the
    wrapper to the writer. *)
Theorem Logger15_reraises
    (el : string) (lg : Logger) (h : Handler) (r : Request) (st st1 : St) (v : string) :
  h r (set_out (fun _ => []) st) = (Panic v, st1) ->
  (Logger15 el lg h r st).1 = Panic v
  /\ logs (Logger15 el lg h r st).2 = logs st1
  /\ Env (Logger15 el lg h r st).2 = Env st1
  /\ out (Logger15 el lg h r st).2 = out st ++ forwarded_of (out st1).
Proof.
  intros Hh. rewrite (Logger15_panics el lg h r st st1 v Hh). repeat split.
Qed.

Lemma Logger15_reraises_witness :
  h_late_panic (request "GET" "/" ∅ None DecodeEOF) (set_out (fun _ => []) st0)
  = (Panic "late", set_out (fun _ => [WriteHeader 200; Write "partial"]) st0)
  /\ (Logger15 "1.2ms" Root h_late_panic (request "GET" "/" ∅ None DecodeEOF) st0).1
     = Panic "late"
  /\ logs (Logger15 "1.2ms" Root h_late_panic
             (request "GET" "/" ∅ None DecodeEOF) st0).2 = [].
Proof.
  split; [reflexivity|].
  destruct (Logger15_reraises "1.2ms" Root h_late_panic
              (request "GET" "/" ∅ None DecodeEOF) st0 _ "late" eq_refl)
    as (H1 & H2 & _).
  split; [exact H1 | exact H2].
Defined.

(** X5: whatever the handler does, [Logger15] adds at most one record to
    the log, and leaves [c.Env] and the package variables as the handler
    left them. *)
Theorem Logger15_at_most_one_record
    (el : string) (lg : Logger) (h : Handler) (r : Request) (st : St) :
  exists l,
    logs (Logger15 el lg h r st).2
    = logs (h r (set_out (fun _ => []) st)).2 ++ l
    /\ (length l <= 1)%nat
    /\ Env (Logger15 el lg h r st).2 = Env (h r (set_out (fun _ => []) st)).2
    /\ reqID (Logger15 el lg h r st).2 = reqID (h r (set_out (fun _ => []) st)).2
    /\ reqPrefix (Logger15 el lg h r st).2
       = reqPrefix (h r (set_out (fun _ => []) st)).2.
Proof.
  destruct (h r (set_out (fun _ => []) st)) as [o st1] eqn:Hh.
  destruct (Logger15_state el lg h r st o st1 Hh) as (o' & l & -> & Hl).
  exists l. repeat split. exact Hl.
Qed.

Lemma ctx_of_even r env0 env1 el s :
  Nat.even (length (ctx_of r env0 env1 el s)) = true.
Proof.
  unfold ctx_of.
  destruct (String.eqb (reqid_of env0) EmptyString),
    (String.eqb (RemoteAddr r) EmptyString),
    (env1 !! "err") as [[]|]; reflexivity.
Qed.

Lemma even_app {A} (a b : list A) :
  Nat.even (length a) = true -> Nat.even (length b) = true ->
  Nat.even (length (a ++ b)) = true.
Proof.
  intros Ha Hb. rewrite length_app, Nat.even_add, Ha, Hb. reflexivity.
Qed.

Lemma stack_levels_even n i s ctx st c st' :
  stack_levels n i s ctx st = (Ret c, st') ->
  Nat.even (length ctx) = true -> Nat.even (length c) = true.
Proof.
  revert i ctx. induction n as [|n IH]; intros i ctx Hrun Hev;
    cbn [stack_levels] in Hrun.
  - now injection Hrun as <- _.
  - destruct ((i <? levels)%nat && (2 * i + 1 <? length s)%nat);
      [|now injection Hrun as <- _].
    destruct (s !! (2 * i)%nat); [|discriminate].
    destruct (s !! (2 * i + 1)%nat); [|discriminate].
    destruct (strings.Index _ _); [|discriminate].
    apply IH in Hrun; [exact Hrun|]. now apply even_app.
Qed.

Lemma stack_fields_even s ctx st c st' :
  stack_fields s ctx st = (Ret c, st') ->
  Nat.even (length ctx) = true -> Nat.even (length c) = true.
Proof.
  destruct s as [|s0 s]; [discriminate|]. apply stack_levels_even.
Qed.

(** X6: every record of [Logger15] has an even number of context
    arguments, a value for each key, whichever fields the request, the
    error and the stack add. *)
Theorem Logger15_ctx_pairs
    (el : string) (lg : Logger) (h : Handler) (r : Request) (st st1 : St) :
  h r (set_out (fun _ => []) st) = (Ret tt, st1) ->
  exists l,
    logs (Logger15 el lg h r st).2 = logs st1 ++ l
    /\ Forall (fun rc => Nat.even (length (rec_ctx rc)) = true
                         /\ rec_logger rc = lg /\ rec_msg rc = URL_Path r) l.
Proof.
  intros Hh. unfold Logger15.
  unfold bind at 1. rewrite GetReqID_run.
  unfold bind at 1. unfold mutil.with_wrapper. rewrite Hh.
  fold (status_of (out st1)).
  set (s := status_of (out st1)) in *.
  unfold bind at 1. unfold Env_get at 1. cbn [Env set_out].
  fold (ctx_of r (Env st) (Env st1) el s).
  pose proof (ctx_of_even r (Env st) (Env st1) el s) as Hev.
  set (ctx := ctx_of r (Env st) (Env st1) el s) in *.
  assert (Hone : forall lvl c, Nat.even (length c) = true ->
            Forall (fun rc => Nat.even (length (rec_ctx rc)) = true
                              /\ rec_logger rc = lg /\ rec_msg rc = URL_Path r)
                   (cons (mkLog lg lvl (URL_Path r) c) nil)).
  { intros lvl c Hc. constructor; [|constructor]. now repeat split. }
  destruct (500 <=? s);
    [|destruct (400 <=? s); eexists; (split; [reflexivity | now apply Hone])].
  unfold bind at 1. unfold Env_get at 1. cbn [Env set_out].
  destruct (Env st1 !! "stack") as [[s'|ss|js|l|o]|];
    try (eexists; split; [reflexivity | now apply Hone]).
  - eexists; split; [reflexivity | apply Hone; now apply even_app].
  - unfold bind at 1.
    match goal with |- context [stack_fields ?a ?c ?x] =>
      pose proof (stack_fields_state a c x) as Hst;
      destruct (stack_fields a c x) as [[c'|v'] st3] eqn:Hsf end;
      cbn [snd] in Hst; subst st3.
    + eexists; split; [reflexivity|]. apply Hone.
      now apply (stack_fields_even _ _ _ _ _ Hsf).
    + exists nil. rewrite app_nil_r. split; [reflexivity | constructor].
Qed.

Lemma Logger15_ctx_pairs_witness :
  h_ok (request "POST" "/" ∅ None DecodeEOF) (set_out (fun _ => []) st0)
  = (Ret tt, set_out (fun _ => [Write "13 characters"]) st0)
  /\ Forall (fun rc => Nat.even (length (rec_ctx rc)) = true)
       (logs (Logger15 "1.2ms" Root h_ok
                (request "POST" "/" ∅ None DecodeEOF) st0).2).
Proof.
  split; [reflexivity|].
  destruct (Logger15_ctx_pairs "1.2ms" Root h_ok
              (request "POST" "/" ∅ None DecodeEOF) st0 _ eq_refl)
    as (l & Hlogs & Hall).
  rewrite Hlogs. cbn [logs set_out st0 app].
  eapply Forall_impl; [exact Hall|]. intros rc Hrc. exact (proj1 Hrc).
Defined.

Lemma ctx_of_status r env0 env1 el s :
  exists pre post,
    ctx_of r env0 env1 el s = pre ++ ["status"; strconv.Itoa s] ++ post.
Proof.
  unfold ctx_of. destruct (env1 !! "err") as [[e| | | |]|];
    try (eexists _, nil; rewrite app_nil_r; reflexivity).
  eexists _, ["err"; e]. now rewrite <- app_assoc.
Qed.

(** X7: the status that [Logger15] logs, and takes the level from, is the
    one of the first [WriteHeader] of the handler; it is 200 for a handler
    that writes without a [WriteHeader], and 0, logged at Info, for a
    handler that never starts a response. *)
Theorem Logger15_logs_first_status
    (el : string) (lg : Logger) (h : Handler) (r : Request) (st st1 : St) :
  h r (set_out (fun _ => []) st) = (Ret tt, st1) ->
  (forall s, 500 <= first_status (out st1) ->
             Env st1 !! "stack" = Some (VStrings s) -> stack_ok s = true) ->
  exists lvl pre post,
    logs (Logger15 el lg h r st).2
    = logs st1 ++
      [mkLog lg lvl (URL_Path r)
         (pre ++ ["status"; strconv.Itoa (first_status (out st1))] ++ post)]
    /\ (500 <= first_status (out st1) -> lvl = LvlCrit)
    /\ (400 <= first_status (out st1) < 500 -> lvl = LvlWarn)
    /\ (first_status (out st1) < 400 -> lvl = LvlInfo).
Proof.
  intros Hh Hstack. rewrite <- status_of_first_status in *.
  destruct (Logger15_returns el lg h r st st1 Hh Hstack)
    as (lvl & extra & Hrun & Hlvl & _).
  destruct (ctx_of_status r (Env st) (Env st1) el (status_of (out st1)))
    as (pre & post & Hctx).
  exists lvl, pre, (post ++ extra). rewrite Hrun, Hctx. cbn [snd logs].
  split; [|exact Hlvl]. now rewrite <- !app_assoc.
Qed.

Lemma Logger15_logs_first_status_witness :
  h_silent (request "GET" "/" ∅ None DecodeEOF) (set_out (fun _ => []) st0)
  = (Ret tt, st0)
  /\ first_status (out st0) = 0
  /\ exists pre post,
       logs (Logger15 "1.2ms" Root h_silent
               (request "GET" "/" ∅ None DecodeEOF) st0).2
       = [mkLog Root LvlInfo "/" (pre ++ ["status"; "0"] ++ post)].
Proof.
  split; [reflexivity|]. split; [reflexivity|].
  destruct (Logger15_logs_first_status "1.2ms" Root h_silent
              (request "GET" "/" ∅ None DecodeEOF) st0 st0 eq_refl)
    as (lvl & pre & post & Hlogs & _ & _ & Hinfo).
  - intros s _ Hs. vm_compute in Hs. discriminate Hs.
  - exists pre, post. rewrite Hlogs, Hinfo; [reflexivity|]. vm_compute. reflexivity.
Defined.

(** X8: with [Recoverer] inside it, as [AddCommon15] installs them,
    [Logger15] returns and logs one record also for a handler that panics:
    the record is at the level of 500 when the handler had not started its
    response, and at the level of the status that the handler had sent
    when it had; the panic value is in [c.Env["err"]] either way. *)
Theorem Logger15_over_Recoverer_panic
    (el stack : string) (lg : Logger) (h : Handler) (r : Request)
    (st st1 : St) (v : string) :
  h r (set_out (fun _ => []) st) = (Panic v, st1) ->
  (3 <= length (strings.Split stack strings.newline))%nat ->
  stack_ok (drop 3 (strings.Split stack strings.newline)) = true ->
  exists lvl ctx,
    (Logger15 el lg (Recoverer stack h) r st).1 = Ret tt
    /\ logs (Logger15 el lg (Recoverer stack h) r st).2
       = logs st1 ++ [mkLog lg lvl (URL_Path r) ctx]
    /\ Env (Logger15 el lg (Recoverer stack h) r st).2 !! "err"
       = Some (VString ("panic: " +:+ v))
    /\ (started (out st1) = false -> lvl = LvlCrit)
    /\ (started (out st1) = true -> first_status (out st1) < 400 -> lvl = LvlInfo).
Proof.
  intros Hh Hlen Hok.
  pose proof (Recoverer_panic_run stack h r _ v st1 Hh) as Hrec.
  apply Nat.leb_le in Hlen. rewrite Hlen in Hrec.
  set (stk := VStrings (drop 3 (strings.Split stack strings.newline))) in *.
  assert (Hstatus : status_of (out (recovered stk v st1))
                    = if started (out st1) then first_status (out st1) else 500).
  { rewrite status_of_first_status. cbn [recovered out].
    now rewrite first_status_app. }
  destruct (Logger15_returns el lg (Recoverer stack h) r st _ Hrec)
    as (lvl & extra & Hrun & Hlvl & _).
  { intros s _ Hs. cbn [recovered Env] in Hs.
    rewrite lookup_insert_ne, lookup_insert_eq in Hs by discriminate.
    now injection Hs as <-. }
  exists lvl. eexists. rewrite Hrun. cbn [fst snd logs Env recovered].
  split; [reflexivity|]. split; [reflexivity|].
  split; [apply lookup_insert_eq|].
  rewrite Hstatus in Hlvl. destruct Hlvl as (Hcrit & _ & Hinfo).
  split; intros Hs; rewrite Hs in *; [apply Hcrit; lia | exact Hinfo].
Qed.

Lemma Logger15_over_Recoverer_panic_witness :
  map rec_lvl
    (logs (Logger15 "1.2ms" Root (Recoverer stack_text h_panic)
             (request "GET" "/" ∅ None DecodeEOF) st0).2) = [LvlCrit]
  /\ map rec_lvl
       (logs (Logger15 "1.2ms" Root (Recoverer stack_text h_late_panic)
                (request "GET" "/" ∅ None DecodeEOF) st0).2) = [LvlInfo].
Proof.
  assert (Hlen : (3 <= length (strings.Split stack_text strings.newline))%nat)
    by (vm_compute; lia).
  assert (Hok : stack_ok (drop 3 (strings.Split stack_text strings.newline)) = true)
    by (vm_compute; reflexivity).
  split.
  - destruct (Logger15_over_Recoverer_panic "1.2ms" stack_text Root h_panic
                (request "GET" "/" ∅ None DecodeEOF) st0 st0 "boom"
                eq_refl Hlen Hok) as (lvl & ctx & _ & Hlogs & _ & Hcrit & _).
    rewrite Hlogs, (Hcrit eq_refl). reflexivity.
  - destruct (Logger15_over_Recoverer_panic "1.2ms" stack_text Root h_late_panic
                (request "GET" "/" ∅ None DecodeEOF) st0
                (set_out (fun _ => [WriteHeader 200; Write "partial"]) st0) "late"
                eq_refl Hlen Hok) as (lvl & ctx & _ & Hlogs & _ & _ & Hinfo).
    rewrite Hlogs, Hinfo; [reflexivity | reflexivity | vm_compute; reflexivity].
Defined.

(** ** GetJSONBody: the whole decision *)

(** X9: a body that decodes is stored in [c.Env["json"]] and the next
    handler runs, when the content-type is absent or application/json and
    the content-length, if there is one, is a number; the number is not
    compared with anything. *)
Theorem GetJSONBody_valid_body
    (h : Handler) (r : Request) (st : St) (js : json_map) :
  Body_decode r = DecodeOK js ->
  (Header_Get (Header r) "content-length" = EmptyString
   \/ exists n, strconv.Atoi (Header_Get (Header r) "content-length") = inl n) ->
  content_type_json r ->
  GetJSONBody h r st = h r (set_Env <["json" := VJSON js]> st).
Proof.
  unfold content_type_json, GetJSONBody. intros Hbody Hcl Hct. rewrite Hbody.
  set (clh := Header_Get (Header r) "content-length") in *.
  set (ct := Header_Get (Header r) "content-type") in *.
  assert (Hlen : exists n,
            (if String.eqb clh EmptyString then inl 0 else strconv.Atoi clh) = inl n).
  { destruct (String.eqb_spec clh EmptyString) as [|Hne]; [now exists 0|].
    destruct Hcl as [Hcl|Hcl]; [contradiction | exact Hcl]. }
  destruct Hlen as [n ->].
  assert (Htype : negb (String.eqb ct EmptyString)
                  && negb (String.eqb ct "application/json") = false).
  { destruct Hct as [-> | ->]; [reflexivity|].
    now rewrite String.eqb_refl, andb_false_r. }
  rewrite Htype. reflexivity.
Qed.

Lemma GetJSONBody_valid_body_witness :
  Body_decode (request "POST" "/" {["Content-Length" := ["999"]]} None
                 (DecodeOK (Some [("name", JString "x")])))
  = DecodeOK (Some [("name", JString "x")])
  /\ Env (GetJSONBody h_ok
            (request "POST" "/" {["Content-Length" := ["999"]]} None
               (DecodeOK (Some [("name", JString "x")]))) st0).2 !! "json"
     = Some (VJSON (Some [("name", JString "x")])).
Proof.
  split; [reflexivity|].
  rewrite (GetJSONBody_valid_body h_ok
             (request "POST" "/" {["Content-Length" := ["999"]]} None
                (DecodeOK (Some [("name", JString "x")]))) st0
             (Some [("name", JString "x")]) eq_refl).
  - vm_compute. reflexivity.
  - right. exists 999. vm_compute. reflexivity.
  - left. reflexivity.
Defined.

(** X10: the headers are checked before the body is read.  A
    content-length that is not a number is answered 400 whatever the rest
    of the request is; with the content-length in order, a content-type
    other than the exact string application/json is answered 400 whatever
    the body is.  The next handler does not run in either case. *)
Theorem GetJSONBody_checks_headers_first (h : Handler) (r : Request) (st : St) :
  (forall err,
     Header_Get (Header r) "content-length" <> EmptyString ->
     strconv.Atoi (Header_Get (Header r) "content-length") = inr err ->
     GetJSONBody h r st
     = ErrorString 400 ("Invalid content-length: " +:+ err) st)
  /\ ((Header_Get (Header r) "content-length" = EmptyString
       \/ exists n, strconv.Atoi (Header_Get (Header r) "content-length") = inl n) ->
      Header_Get (Header r) "content-type" <> EmptyString ->
      Header_Get (Header r) "content-type" <> "application/json" ->
      GetJSONBody h r st
      = ErrorString 400
          ("Invalid content-type '" +:+ Header_Get (Header r) "content-type"
           +:+ "', application/json expected") st).
Proof.
  unfold GetJSONBody.
  set (clh := Header_Get (Header r) "content-length") in *.
  set (ct := Header_Get (Header r) "content-type") in *.
  split.
  - intros err Hne Herr. apply String.eqb_neq in Hne. now rewrite Hne, Herr.
  - intros Hcl Hct1 Hct2.
    assert (Hlen : exists n,
              (if String.eqb clh EmptyString then inl 0 else strconv.Atoi clh)
              = inl n).
    { destruct (String.eqb_spec clh EmptyString) as [|Hne]; [now exists 0|].
      destruct Hcl as [Hcl|Hcl]; [contradiction | exact Hcl]. }
    destruct Hlen as [n ->].
    apply String.eqb_neq in Hct1, Hct2. now rewrite Hct1, Hct2.
Qed.

Lemma GetJSONBody_checks_headers_first_witness :
  In (WriteHeader 400)
     (out (GetJSONBody h_ok
             (request "POST" "/" {["Content-Length" := ["12 bytes"]]} None
                (DecodeOK (Some []))) st0).2)
  /\ In (WriteHeader 400)
        (out (GetJSONBody h_ok
                (request "POST" "/"
                   {["Content-Type" := ["application/json; charset=utf-8"]]} None
                   (DecodeOK (Some []))) st0).2).
Proof.
  split.
  - destruct (GetJSONBody_checks_headers_first h_ok
                (request "POST" "/" {["Content-Length" := ["12 bytes"]]} None
                   (DecodeOK (Some []))) st0) as [Hcl _].
    erewrite Hcl; [|vm_compute; discriminate | vm_compute; reflexivity].
    vm_compute. tauto.
  - destruct (GetJSONBody_checks_headers_first h_ok
                (request "POST" "/"
                   {["Content-Type" := ["application/json; charset=utf-8"]]} None
                   (DecodeOK (Some []))) st0) as [_ Hct].
    rewrite Hct;
      [|left; reflexivity | vm_compute; discriminate | vm_compute; discriminate].
    vm_compute. tauto.
Defined.

(** X11: for every request [GetJSONBody] does one of two things, and which
    one depends on the request alone: it answers 400 through [ErrorString]
    without the next handler, or it stores a map under [json] and is the
    next handler from there, writing nothing itself. *)
Theorem GetJSONBody_rejects_or_hands_over (r : Request) :
  (exists msg, forall (h : Handler) st, GetJSONBody h r st = ErrorString 400 msg st)
  \/ (exists js, forall (h : Handler) st,
        GetJSONBody h r st = h r (set_Env <["json" := VJSON js]> st)).
Proof.
  unfold GetJSONBody.
  destruct (if String.eqb _ _ then _ else _) as [cl|err]; [|left; now eexists].
  destruct (negb _ && negb _); [left; now eexists|].
  destruct (Body_decode r) as [|js|msg].
  - destruct (negb (cl =? 0)); [left | right]; now eexists.
  - right. now eexists.
  - left. now eexists.
Qed.

(** ** ContextLogger *)

Lemma fallback_id_not_empty p n : p +:+ "-" +:+ n <> EmptyString.
Proof.
  intros Heq. apply (f_equal String.length) in Heq.
  rewrite !append_length in Heq. simpl in Heq. lia.
Qed.

(** X12: behind [RequestID], as [AddCommon15] installs them,
    [ContextLogger] always puts a logger under [c.Env["log"]], made with
    the context [req] and the identifier of the request, which is never
    empty; on its own, without a string under the request ID key, it
    stores nothing and is the next handler. *)
Theorem ContextLogger_after_RequestID (h : Handler) (r : Request) (st : St) :
  (exists id,
     id <> EmptyString
     /\ RequestID (ContextLogger h) r st
        = h r (set_Env <[ContextLog := VLogger (New Root ["req"; id])]>
                 (set_Env <[middleware.RequestIDKey := VString id]>
                    (if fallback r
                     then set_reqID (fun _ => wrap64 (reqID st + 1)) st
                     else st))))
  /\ ((forall id, Env st !! middleware.RequestIDKey <> Some (VString id)) ->
      ContextLogger h r st = h r st).
Proof.
  split.
  - rewrite RequestID_run. unfold fallback.
    destruct (String.eqb_spec (Header_Get (Header r) RequestIDHeader) EmptyString)
      as [Hid|Hid]; eexists; (split; [|unfold ContextLogger, bind, Env_get;
        cbn [Env set_Env]; rewrite lookup_insert_eq; reflexivity]).
    + apply fallback_id_not_empty.
    + exact Hid.
  - intros Hno. unfold ContextLogger, bind, Env_get.
    destruct (Env st !! middleware.RequestIDKey) as [[id| | | |]|] eqn:Hk;
      try reflexivity.
    now destruct (Hno id).
Qed.

Lemma ContextLogger_after_RequestID_witness :
  Env st0 !! middleware.RequestIDKey = None
  /\ ContextLogger h_ok (request "GET" "/" ∅ None DecodeEOF) st0
     = h_ok (request "GET" "/" ∅ None DecodeEOF) st0.
Proof.
  split; [reflexivity|].
  destruct (ContextLogger_after_RequestID h_ok
              (request "GET" "/" ∅ None DecodeEOF) st0) as [_ Halone].
  apply Halone. intros id. vm_compute. discriminate.
Defined.

(** ** ParamsLogger *)

Lemma form_params_run kvs params :
  Forall (fun kv => kv.2 <> []) kvs ->
  forall st,
    form_params kvs params st
    = (Ret (params ++ flat_map (fun kv => [kv.1; default EmptyString (head kv.2)]) kvs),
       st).
Proof.
  revert params. induction kvs as [|[k v] kvs IH]; intros params Hall st.
  - cbn. now rewrite app_nil_r.
  - apply Forall_cons in Hall as [Hv Hall]. destruct v as [|v0 v]; [done|].
    cbn [form_params]. rewrite IH by assumption. cbn. now rewrite <- app_assoc.
Qed.

Lemma form_params_panics kvs params st :
  Exists (fun kv => kv.2 = []) kvs ->
  form_params kvs params st = (Panic "runtime error: index out of range", st).
Proof.
  revert params. induction kvs as [|[k v] kvs IH]; intros params Hex.
  - inversion Hex.
  - destruct v as [|v0 v]; [reflexivity|]. cbn [form_params]. apply IH.
    apply Exists_cons in Hex as [Hex|Hex]; [discriminate | exact Hex].
Qed.

Lemma flat_map_pairs_length {A} (f g : A -> string) (l : list A) :
  length (flat_map (fun x => [f x; g x]) l) = (2 * length l)%nat.
Proof. induction l as [|x l IH]; [reflexivity|]. cbn. rewrite IH. lia. Qed.

(** X13: when every key of [r.Form] has a value, [ParamsLogger] emits one
    Debug record with the message [Begin <method> <path>] and then is the
    next handler: on the logger that [c.Env["log"]] holds, and on the root
    logger when there is none.  Not verbose, the context arguments are a
    key and its first value for each key of the form, twice as many as
    there are keys. *)
Theorem ParamsLogger_logs_before
    (up env : string) (verbose : bool) (h : Handler) (r : Request) (st : St) :
  (forall k v, Form r !! k = Some v -> v <> []) ->
  exists ctx,
    ParamsLogger up env verbose h r st
    = h r (set_logs
             (fun l => l ++
                [mkLog (match Env st !! ContextLog with
                        | Some (VLogger lg) => lg
                        | _ => Root
                        end)
                   LvlDebug ("Begin " +:+ Method r +:+ " " +:+ URL_Path r) ctx]) st)
    /\ (verbose = false ->
        length ctx = (2 * size (Form r))%nat
        /\ forall k v0 v, Form r !! k = Some (v0 :: v) ->
             exists i, ctx !! (2 * i)%nat = Some k
                       /\ ctx !! (2 * i + 1)%nat = Some v0).
Proof.
  intros Hform.
  assert (Hall : Forall (fun kv => kv.2 <> []) (map_to_list (Form r))).
  { apply Forall_forall. intros [k v] Hin. apply elem_of_map_to_list in Hin.
    exact (Hform k v Hin). }
  unfold ParamsLogger. unfold bind at 1.
  rewrite (form_params_run _ [] Hall). cbn [app].
  set (params := flat_map _ _).
  unfold bind at 1. unfold Env_get at 1.
  destruct verbose; eexists; (split; [reflexivity|]); [discriminate|].
  intros _. split.
  - unfold params. rewrite flat_map_pairs_length. now rewrite length_map_to_list.
  - intros k v0 v Hk. apply elem_of_map_to_list in Hk.
    apply list_elem_of_lookup in Hk as [i Hi]. exists i. unfold params.
    clear -Hi. revert i Hi.
    induction (map_to_list (Form r)) as [|[k' v'] l IH]; intros i Hi;
      [discriminate|].
    destruct i as [|i]; cbn in Hi.
    + injection Hi as -> ->. split; reflexivity.
    + destruct (IH i Hi) as [H1 H2]. cbn [flat_map].
      replace (2 * S i)%nat with (S (S (2 * i))) by lia.
      replace (S (S (2 * i)) + 1)%nat with (S (S (2 * i + 1))) by lia.
      split; [exact H1 | exact H2].
Qed.

Lemma ParamsLogger_logs_before_witness :
  map (fun rc => (rec_logger rc, rec_lvl rc, rec_msg rc))
    (logs (ParamsLogger "map[]" "map[]" false h_ok
             (mkRequest "GET" "/search" "10.0.0.1:4000" ∅ {["q" := ["go"; "rocq"]]}
                ∅ None DecodeEOF) st0).2)
  = [(Root, LvlDebug, "Begin GET /search")].
Proof.
  destruct (ParamsLogger_logs_before "map[]" "map[]" false h_ok
              (mkRequest "GET" "/search" "10.0.0.1:4000" ∅ {["q" := ["go"; "rocq"]]}
                 ∅ None DecodeEOF) st0) as (ctx & Hrun & _).
  - intros k v Hk. cbn [Form] in Hk.
    apply lookup_singleton_Some in Hk as [_ <-]. discriminate.
  - rewrite Hrun. vm_compute. reflexivity.
Defined.

(** X14: a key of [r.Form] without a value makes [ParamsLogger] panic on
    [v[0]]: nothing is logged and the next handler does not run. *)
Theorem ParamsLogger_key_without_value
    (up env : string) (verbose : bool) (h : Handler) (r : Request) (st : St)
    (k : string) :
  Form r !! k = Some [] ->
  ParamsLogger up env verbose h r st
  = (Panic "runtime error: index out of range", st).
Proof.
  intros Hk. unfold ParamsLogger. unfold bind at 1.
  rewrite form_params_panics; [reflexivity|].
  apply Exists_exists. exists (k, []). split; [|reflexivity].
  now apply elem_of_map_to_list.
Qed.

Lemma ParamsLogger_key_without_value_witness :
  ParamsLogger "map[]" "map[]" true h_ok
    (mkRequest "GET" "/search" "10.0.0.1:4000" ∅ {["q" := []]} ∅ None DecodeEOF) st0
  = (Panic "runtime error: index out of range", st0).
Proof.
  apply (ParamsLogger_key_without_value _ _ _ _ _ _ "q"). reflexivity.
Defined.

(** ** The package variables, again *)

Lemma form_params_state kvs params st : (form_params kvs params st).2 = st.
Proof.
  revert params. induction kvs as [|[k v] kvs IH]; intros params; [reflexivity|].
  destruct v; [reflexivity | apply IH].
Qed.

Lemma ParamsLogger_preserves_pkg up env verbose h :
  preserves_pkg h -> preserves_pkg (ParamsLogger up env verbose h).
Proof.
  intros Hh r st.
  cut (exists x, ParamsLogger up env verbose h r st = x
                 /\ reqID x.2 = reqID st /\ reqPrefix x.2 = reqPrefix st).
  { intros (x & -> & Hx). exact Hx. }
  unfold ParamsLogger. unfold bind at 1.
  pose proof (form_params_state (map_to_list (Form r)) [] st) as Hst.
  destruct (form_params (map_to_list (Form r)) [] st) as [[params|v] st'];
    cbn [snd] in Hst; subst st'; [|eexists; split; [reflexivity | now split]].
  unfold bind at 1. unfold Env_get at 1.
  destruct verbose; unfold bind, log_emit;
    (eexists; split; [reflexivity | by_next_handler Hh]).
Qed.

(** X15: no middleware of the package but [RequestID] assigns the counter,
    and none assigns the prefix: around a handler that leaves the two
    variables alone, each middleware leaves them alone, and [RequestID]
    changes the counter by its add of 1 only, and only for a request that
    brings no identifier. *)
Theorem middlewares_keep_package_variables
    (h : Handler) (m : Env_map) (el stack up env : string) (lg : Logger)
    (verbose : bool) :
  preserves_pkg h ->
  preserves_pkg (EnvAdd m h)
  /\ preserves_pkg (Logger15 el lg h)
  /\ preserves_pkg (ParamsLogger up env verbose h)
  /\ preserves_pkg (Recoverer stack h)
  /\ preserves_pkg (FormParser h)
  /\ preserves_pkg (ContextLogger h)
  /\ preserves_pkg (GetJSONBody h)
  /\ (forall r st,
        reqPrefix (RequestID h r st).2 = reqPrefix st
        /\ reqID (RequestID h r st).2
           = if fallback r then wrap64 (reqID st + 1) else reqID st).
Proof.
  intros Hh.
  split; [now apply EnvAdd_preserves_pkg|].
  split; [now apply Logger15_preserves_pkg|].
  split; [now apply ParamsLogger_preserves_pkg|].
  split; [now apply Recoverer_preserves_pkg|].
  split; [now apply FormParser_preserves_pkg|].
  split; [now apply ContextLogger_preserves_pkg|].
  split; [now apply GetJSONBody_preserves_pkg|].
  intros r st. now apply RequestID_pkg.
Qed.

Lemma middlewares_keep_package_variables_witness :
  reqID (Logger15 "1.2ms" Root (Recoverer stack_text (FormParser h_ok))
           (request "POST" "/" ∅ None DecodeEOF) st0).2 = reqID st0
  /\ reqPrefix (Logger15 "1.2ms" Root (Recoverer stack_text (FormParser h_ok))
                  (request "POST" "/" ∅ None DecodeEOF) st0).2 = reqPrefix st0.
Proof.
  destruct (middlewares_keep_package_variables h_ok ∅ "1.2ms" stack_text
              "map[]" "map[]" Root false h_ok_preserves_pkg)
    as (_ & _ & _ & _ & Hform & _).
  destruct (middlewares_keep_package_variables (FormParser h_ok) ∅ "1.2ms"
              stack_text "map[]" "map[]" Root false Hform)
    as (_ & _ & _ & Hrec & _).
  destruct (middlewares_keep_package_variables (Recoverer stack_text (FormParser h_ok))
              ∅ "1.2ms" stack_text "map[]" "map[]" Root false Hrec)
    as (_ & Hlog & _).
  exact (Hlog (request "POST" "/" ∅ None DecodeEOF) st0).
Defined.

(** ** The prefix is alphanumeric *)

Lemma enc_b64 v : b64char (base64.enc v) = true.
Proof.
  unfold base64.enc.
  assert (Hn : (N.to_nat (N.land v 63) < 64)%nat).
  { change 63%N with (N.ones 6). rewrite N.land_ones.
    pose proof (N.mod_upper_bound v (2 ^ 6)) as Hm.
    assert (Hp : (2 ^ 6 = 64)%N) by reflexivity. rewrite Hp in *. lia. }
  revert Hn. generalize (N.to_nat (N.land v 63)). intros n Hn.
  do 64 (destruct n as [|n]; [reflexivity|]). lia.
Qed.

Lemma encode_b64 n src :
  length src = (3 * n)%nat -> all_b64 (base64.EncodeToString src) = true.
Proof.
  revert src. induction n as [|n IH]; intros src Hlen.
  - destruct src; [reflexivity | discriminate].
  - destruct src as [|b0 [|b1 [|b2 rest]]]; cbn [length] in Hlen; try lia.
    cbn [base64.EncodeToString all_b64]. rewrite !enc_b64. cbn [andb].
    apply IH. lia.
Qed.

Lemma drop_plus_slash_alnum s :
  all_b64 s = true -> all_alnum (drop_plus_slash s) = true.
Proof.
  induction s as [|a s IH]; [reflexivity|]. cbn [all_b64 drop_plus_slash].
  intros Hs. apply andb_true_iff in Hs as [Ha Hs]. unfold b64char in Ha.
  destruct (Ascii.eqb a "+" || Ascii.eqb a "/") eqn:Hps; [now apply IH|].
  cbn [all_alnum]. rewrite IH by assumption.
  apply orb_false_iff in Hps as [Hp Hsl]. rewrite Hp, Hsl, !orb_false_r in Ha.
  now rewrite Ha.
Qed.

Lemma substring_alnum n s :
  all_alnum s = true -> all_alnum (String.substring 0 n s) = true.
Proof.
  revert s. induction n as [|n IH]; intros [|a s] Hs; try reflexivity.
  cbn [all_alnum] in Hs. apply andb_true_iff in Hs as [Ha Hs].
  cbn [String.substring all_alnum]. now rewrite Ha, IH.
Qed.

(** X16: the prefix that [init] computes from reads of 12 bytes is made of
    ten letters and digits: the plus signs and slashes of the encoding are
    taken out, there is no padding, and a read that keeps fewer than ten
    characters is thrown away. *)
Theorem init_prefix_alnum (reads : list (list Byte.byte)) (p : string) :
  Forall (fun buf => length buf = 12%nat) reads ->
  init_prefix reads = Some p ->
  String.length p = 10%nat /\ all_alnum p = true.
Proof.
  intros Hall Hp. split; [exact (init_prefix_length reads p Hp)|].
  induction reads as [|buf reads IH]; [discriminate|].
  apply Forall_cons in Hall as [Hbuf Hall]. cbn [init_prefix] in Hp.
  destruct (String.length (drop_plus_slash (base64.EncodeToString buf)) <? 10)%nat;
    [now apply IH|].
  injection Hp as <-. apply substring_alnum, drop_plus_slash_alnum.
  apply (encode_b64 4). exact Hbuf.
Qed.

Lemma init_prefix_alnum_witness :
  Forall (fun buf => length buf = 12%nat) sample_reads
  /\ init_prefix sample_reads = Some "AAHhAgMEBQ"
  /\ all_alnum "AAHhAgMEBQ" = true.
Proof.
  assert (Hall : Forall (fun buf => length buf = 12%nat) sample_reads)
    by (repeat constructor).
  assert (Hp : init_prefix sample_reads = Some "AAHhAgMEBQ")
    by (vm_compute; reflexivity).
  split; [exact Hall|]. split; [exact Hp|].
  exact (proj2 (init_prefix_alnum sample_reads _ Hall Hp)).
Defined.

(** ** More on Logger15 *)

Lemma ctx_of_head r env0 env1 el s :
  exists rest,
    ctx_of r env0 env1 el s
    = if String.eqb (reqid_of env0) EmptyString
      then "verb" :: Method r :: rest
      else "req" :: reqid_of env0 :: "verb" :: Method r :: rest.
Proof.
  unfold ctx_of.
  destruct (String.eqb (reqid_of env0) EmptyString),
    (String.eqb (RemoteAddr r) EmptyString),
    (env1 !! "err") as [[]|]; simpl; eexists; reflexivity.
Qed.

(** X17: [Logger15] logs the request ID that [c.Env] holds when the
    request comes in, before the next handler runs: the record starts with
    [req] and that ID when there is one, and with [verb] when there is
    none, whatever the handlers below store later.  So [RequestID] has to
    be installed above [Logger15], as [AddCommon15] does. *)
Theorem Logger15_reads_id_first
    (el : string) (lg : Logger) (h : Handler) (r : Request) (st st1 : St) :
  h r (set_out (fun _ => []) st) = (Ret tt, st1) ->
  (forall s, 500 <= status_of (out st1) ->
             Env st1 !! "stack" = Some (VStrings s) -> stack_ok s = true) ->
  exists lvl rest,
    logs (Logger15 el lg h r st).2
    = logs st1 ++
      [mkLog lg lvl (URL_Path r)
         (if String.eqb (reqid_of (Env st)) EmptyString
          then "verb" :: Method r :: rest
          else "req" :: reqid_of (Env st) :: "verb" :: Method r :: rest)].
Proof.
  intros Hh Hstack.
  destruct (Logger15_returns el lg h r st st1 Hh Hstack)
    as (lvl & extra & Hrun & _).
  destruct (ctx_of_head r (Env st) (Env st1) el (status_of (out st1)))
    as [rest Hctx].
  rewrite Hrun, Hctx. cbn [snd logs]. exists lvl, (rest ++ extra).
  now destruct (String.eqb (reqid_of (Env st)) EmptyString).
Qed.

Lemma Logger15_reads_id_first_witness :
  map (fun rc => take 2 (rec_ctx rc))
    (logs (Logger15 "1.2ms" Root (RequestID h_ok)
             (request "GET" "/" ∅ None DecodeEOF) st0).2) = [["verb"; "GET"]]
  /\ map (fun rc => take 2 (rec_ctx rc))
       (logs (RequestID (Logger15 "1.2ms" Root h_ok)
                (request "GET" "/" ∅ None DecodeEOF) st0).2)
     = [["req"; "AbCdEfGhIj-1"]].
Proof.
  split.
  - assert (Hh : RequestID h_ok (request "GET" "/" ∅ None DecodeEOF)
                   (set_out (fun _ => []) st0)
                 = (Ret tt,
                    mkSt (<[middleware.RequestIDKey := VString "AbCdEfGhIj-1"]> ∅)
                         [Write "13 characters"] [] "AbCdEfGhIj" 1))
      by (vm_compute; reflexivity).
    destruct (Logger15_reads_id_first "1.2ms" Root (RequestID h_ok)
                (request "GET" "/" ∅ None DecodeEOF) st0 _ Hh)
      as (lvl & rest & Hlogs).
    + intros s _ Hs. vm_compute in Hs. discriminate Hs.
    + rewrite Hlogs. reflexivity.
  - assert (Hrid : RequestID (Logger15 "1.2ms" Root h_ok)
                     (request "GET" "/" ∅ None DecodeEOF) st0
                   = Logger15 "1.2ms" Root h_ok (request "GET" "/" ∅ None DecodeEOF)
                       (set_Env <[middleware.RequestIDKey := VString "AbCdEfGhIj-1"]>
                          (set_reqID (fun _ => 1) st0)))
      by (vm_compute; reflexivity).
    rewrite Hrid.
    destruct (Logger15_reads_id_first "1.2ms" Root h_ok
                (request "GET" "/" ∅ None DecodeEOF)
                (set_Env <[middleware.RequestIDKey := VString "AbCdEfGhIj-1"]>
                   (set_reqID (fun _ => 1) st0)) _ eq_refl)
      as (lvl & rest & Hlogs).
    + intros s _ Hs. vm_compute in Hs. discriminate Hs.
    + rewrite Hlogs. reflexivity.
Defined.

Lemma wrapper_forwards calls b :
  starts_once (mutil.wroteHeader b) calls = true ->
  mutil.forwarded (fold_left mutil.call calls b) = mutil.forwarded b ++ calls.
Proof.
  revert b. induction calls as [|c calls IH]; intros b Hb.
  - cbn. now rewrite app_nil_r.
  - cbn [fold_left]. destruct c as [k v|s|body]; cbn [starts_once] in Hb.
    + rewrite IH by exact Hb. cbn. now rewrite <- app_assoc.
    + apply andb_true_iff in Hb as [Hw Hb]. apply negb_true_iff in Hw.
      cbn [mutil.call]. unfold mutil.do_WriteHeader. rewrite Hw.
      rewrite IH by exact Hb. cbn. now rewrite <- app_assoc.
    + apply andb_true_iff in Hb as [Hw Hb].
      cbn [mutil.call]. unfold mutil.do_Write, mutil.do_WriteHeader. rewrite Hw.
      rewrite IH by (cbn; now rewrite Hw). cbn. now rewrite <- app_assoc.
Qed.

(** X18: [Logger15] does not change the response of a handler that starts
    it once, with a [WriteHeader] before its first [Write] and none after:
    the writer receives the calls of the handler as they were made, after
    those made before. *)
Theorem Logger15_passes_response_on
    (el : string) (lg : Logger) (h : Handler) (r : Request) (st : St) :
  starts_once false (out (h r (set_out (fun _ => []) st)).2) = true ->
  out (Logger15 el lg h r st).2
  = out st ++ out (h r (set_out (fun _ => []) st)).2.
Proof.
  intros Hcalls.
  destruct (h r (set_out (fun _ => []) st)) as [o st1] eqn:Hh. cbn [snd] in *.
  destruct (Logger15_state el lg h r st o st1 Hh) as (o' & l & -> & _).
  cbn [snd out]. unfold forwarded_of.
  now rewrite (wrapper_forwards _ mutil.WrapWriter Hcalls).
Qed.

Lemma Logger15_passes_response_on_witness :
  out (Logger15 "1.2ms" Root (fun _ => rw (WriteHeader 201) ;;; rw (Write "made"))
         (request "PUT" "/x" ∅ None DecodeEOF)
         (set_out (fun _ => [SetHeader "Server" "goji"]) st0)).2
  = [SetHeader "Server" "goji"; WriteHeader 201; Write "made"].
Proof.
  rewrite (Logger15_passes_response_on "1.2ms" Root
             (fun _ => rw (WriteHeader 201) ;;; rw (Write "made"))
             (request "PUT" "/x" ∅ None DecodeEOF)
             (set_out (fun _ => [SetHeader "Server" "goji"]) st0));
    reflexivity.
Defined.

(** ** The earlier revision *)

(** X22: in the revision of [src/middleware.go], [Logger15] does not use
    the logger it is given: for a handler that returns, its one record goes
    to the root logger of log15, at the level of the status, and the result
    is the same for any two loggers. *)
Theorem Rev1_Logger15_ignores_logger
    (el : string) (lg : Logger) (h : Handler) (r : Request) (st st1 : St) :
  h r (set_out (fun _ => []) st) = (Ret tt, st1) ->
  (exists lvl ctx,
     logs (Rev1.Logger15 el lg h r st).2
     = logs st1 ++ [mkLog Root lvl (URL_Path r) ctx]
     /\ (500 <= status_of (out st1) -> lvl = LvlCrit)
     /\ (400 <= status_of (out st1) < 500 -> lvl = LvlWarn)
     /\ (status_of (out st1) < 400 -> lvl = LvlInfo))
  /\ forall lg', Rev1.Logger15 el lg' h r st = Rev1.Logger15 el lg h r st.
Proof.
  intros Hh. split; [|reflexivity].
  destruct (Rev1_Logger15_logs_to_root el lg h r st st1 Hh)
    as (lvl & ctx & Hrun & Hlvl).
  exists lvl, ctx. rewrite Hrun. split; [reflexivity | exact Hlvl].
Qed.

Lemma Rev1_Logger15_ignores_logger_witness :
  map (fun rc => (rec_logger rc, rec_lvl rc))
    (logs (Rev1.Logger15 "1.2ms" (New Root ["app"; "test"]) h_ok
             (request "POST" "/" ∅ None DecodeEOF) st0).2)
  = [(Root, LvlInfo)].
Proof.
  destruct (Rev1_Logger15_ignores_logger "1.2ms" (New Root ["app"; "test"]) h_ok
              (request "POST" "/" ∅ None DecodeEOF) st0 _ eq_refl)
    as [(lvl & ctx & Hlogs & _ & _ & Hinfo) _].
  rewrite Hlogs, Hinfo; [reflexivity|]. vm_compute. reflexivity.
Defined.





(** ** Composition *)

(** X20: of two [EnvAdd] middlewares the inner one wins: [EnvAdd m1]
    around [EnvAdd m2] is [EnvAdd] of [m2] completed by [m1], so a key of
    both gets the value of [m2]; in particular [EnvAdd m] twice is
    [EnvAdd m] once. *)
Theorem EnvAdd_inner_wins (m1 m2 : Env_map) (h : Handler) (r : Request) (st : St) :
  EnvAdd m1 (EnvAdd m2 h) r st = EnvAdd (m2 ∪ m1) h r st
  /\ EnvAdd m1 (EnvAdd m1 h) r st = EnvAdd m1 h r st.
Proof.
  assert (Hrun : forall m (g : Handler) s,
            EnvAdd m g r s = g r (set_Env (fun env => m ∪ env) s)).
  { intros m g s. unfold EnvAdd, bind, range_put, set_Env.
    now rewrite range_put_union. }
  rewrite !Hrun. unfold set_Env. cbn [Env out logs reqPrefix reqID].
  split; f_equal; f_equal.
  - now rewrite (assoc_L (∪)).
  - rewrite (assoc_L (∪)). f_equal. apply map_eq. intros k.
    rewrite lookup_union. now destruct (m1 !! k).
Qed.

Lemma forwarded_grows calls b x :
  In x (mutil.forwarded b) -> In x (mutil.forwarded (fold_left mutil.call calls b)).
Proof.
  revert b. induction calls as [|c calls IH]; intros b Hx; [exact Hx|].
  cbn [fold_left]. apply IH.
  destruct c; cbn [mutil.call]; unfold mutil.do_Write, mutil.do_WriteHeader;
    destruct (mutil.wroteHeader b); cbn [mutil.forwarded];
    rewrite ?in_app_iff; tauto.
Qed.

Lemma forwarded_keeps_writes calls b body :
  In (Write body) calls ->
  In (Write body) (mutil.forwarded (fold_left mutil.call calls b)).
Proof.
  revert b. induction calls as [|c calls IH]; intros b Hin; [destruct Hin|].
  destruct Hin as [->|Hin]; [|now apply IH].
  cbn [fold_left]. apply forwarded_grows.
  cbn [mutil.call]. unfold mutil.do_Write. cbn [mutil.forwarded].
  rewrite in_app_iff. right. now left.
Qed.

(** X21: the 500 that follows a panic can be matched with its log record:
    with a request ID in [c.Env] that the handler has not replaced, the
    response written through [Logger15] and [Recoverer] contains the body
    [Internal Error (request ID: <id>)] and the record of [Logger15] starts
    with [req] and the same ID. *)
Theorem panic_response_and_record_share_id
    (el stack : string) (lg : Logger) (h : Handler) (r : Request)
    (st st1 : St) (v id : string) :
  Env st !! middleware.RequestIDKey = Some (VString id) ->
  id <> EmptyString ->
  h r (set_out (fun _ => []) st) = (Panic v, st1) ->
  Env st1 !! middleware.RequestIDKey = Some (VString id) ->
  (3 <= length (strings.Split stack strings.newline))%nat ->
  stack_ok (drop 3 (strings.Split stack strings.newline)) = true ->
  In (Write ("Internal Error (request ID: " +:+ id +:+ ")"
             +:+ String strings.newline EmptyString))
     (out (Logger15 el lg (Recoverer stack h) r st).2)
  /\ exists lvl rest,
       logs (Logger15 el lg (Recoverer stack h) r st).2
       = logs st1 ++ [mkLog lg lvl (URL_Path r) ("req" :: id :: rest)].
Proof.
  intros Hid Hne Hh Hid1 Hlen Hok.
  pose proof (Recoverer_panic_run stack h r _ v st1 Hh) as Hrec.
  apply Nat.leb_le in Hlen. rewrite Hlen in Hrec.
  set (stk := VStrings (drop 3 (strings.Split stack strings.newline))) in *.
  destruct (Logger15_returns el lg (Recoverer stack h) r st _ Hrec)
    as (lvl & extra & Hrun & _).
  { intros s _ Hs. cbn [recovered Env] in Hs.
    rewrite lookup_insert_ne, lookup_insert_eq in Hs by discriminate.
    now injection Hs as <-. }
  rewrite Hrun. cbn [snd out logs]. split.
  - rewrite in_app_iff. right. unfold forwarded_of.
    apply forwarded_keeps_writes. cbn [recovered out].
    rewrite in_app_iff. right. unfold error_calls, internal_error_text.
    rewrite !reqid_of_insert_ne by discriminate.
    unfold reqid_of. rewrite Hid1, !append_assoc. cbn. tauto.
  - destruct (ctx_of_head r (Env st) (Env (recovered stk v st1)) el
                (status_of (out (recovered stk v st1)))) as [rest Hctx].
    rewrite Hctx. unfold reqid_of. rewrite Hid.
    apply String.eqb_neq in Hne. rewrite Hne.
    exists lvl, ("verb" :: Method r :: rest ++ extra). reflexivity.
Qed.

Lemma panic_response_and_record_share_id_witness :
  In (Write ("Internal Error (request ID: abc-7)"
             +:+ String strings.newline EmptyString))
     (out (Logger15 "1.2ms" Root (Recoverer stack_text h_panic)
             (request "GET" "/" ∅ None DecodeEOF)
             (set_Env <[middleware.RequestIDKey := VString "abc-7"]> st0)).2)
  /\ map (fun rc => take 2 (rec_ctx rc))
       (logs (Logger15 "1.2ms" Root (Recoverer stack_text h_panic)
                (request "GET" "/" ∅ None DecodeEOF)
                (set_Env <[middleware.RequestIDKey := VString "abc-7"]> st0)).2)
     = [["req"; "abc-7"]].
Proof.
  assert (Hlen : (3 <= length (strings.Split stack_text strings.newline))%nat)
    by (vm_compute; lia).
  assert (Hok : stack_ok (drop 3 (strings.Split stack_text strings.newline)) = true)
    by (vm_compute; reflexivity).
  assert (Hne : "abc-7" <> EmptyString) by discriminate.
  assert (Hid : Env (set_Env <[middleware.RequestIDKey := VString "abc-7"]> st0)
                  !! middleware.RequestIDKey = Some (VString "abc-7"))
    by (vm_compute; reflexivity).
  destruct (panic_response_and_record_share_id "1.2ms" stack_text Root h_panic
              (request "GET" "/" ∅ None DecodeEOF)
              (set_Env <[middleware.RequestIDKey := VString "abc-7"]> st0)
              (set_Env <[middleware.RequestIDKey := VString "abc-7"]> st0)
              "boom" "abc-7" Hid Hne eq_refl Hid Hlen Hok)
    as (Hbody & lvl & rest & Hlogs).
  split; [exact Hbody|]. rewrite Hlogs. reflexivity.
Defined.
